(** * Plugin viewer: filter, sort and view binding of [plugin_viewer.py]

    A shallow embedding of the [PluginViewer] application class.  The
    application object becomes a record [App] that every method takes and
    returns; the widgets the methods talk to (the search [Input], the
    [DataTable], the [Static] status line, the notification area) are
    fields of that record.  Plugin records are Python dictionaries loaded
    from JSON and are modelled as finite maps from field names to
    strings.  Strings are sequences of code points below 256, on which
    [str.lower], [str.strip] and the comparison of strings are the ones
    of Python restricted to that range. *)

From Stdlib Require Import String Ascii List NArith Bool Lia.
From Stdlib Require Import Sorting.Sorted Sorting.Permutation DecimalString.
From stdpp Require Import base option gmap strings list.

Open Scope string_scope.

(** ** Strings *)

Module Str.

Definition code (c : ascii) : N := N_of_ascii c.

Definition between (lo hi : N) (c : ascii) : bool :=
  (lo <=? code c)%N && (code c <=? hi)%N.

(** Code points that [str.lower] changes: A-Z and the upper-case
    letters of the Latin-1 block (U+00D7, the multiplication sign, is
    not a letter). *)
Definition is_upper (c : ascii) : bool :=
  between 65 90 c || between 192 214 c || between 216 222 c.

Definition lower_char (c : ascii) : ascii :=
  if is_upper c then ascii_of_N (code c + 32) else c.

(** [s.lower()] *)
Fixpoint lower (s : string) : string :=
  match s with
  | EmptyString => EmptyString
  | String c s' => String (lower_char c) (lower s')
  end.

(** [c.isspace()]: TAB, LF, VT, FF, CR, the separators U+001C-U+001F,
    SPACE, NEL and the no-break space. *)
Definition is_space (c : ascii) : bool :=
  between 9 13 c || between 28 32 c
  || (code c =? 133)%N || (code c =? 160)%N.

Fixpoint lstrip (s : string) : string :=
  match s with
  | EmptyString => EmptyString
  | String c s' => if is_space c then lstrip s' else s
  end.

Fixpoint rstrip (s : string) : string :=
  match s with
  | EmptyString => EmptyString
  | String c s' =>
      match rstrip s' with
      | EmptyString => if is_space c then EmptyString else String c EmptyString
      | t => String c t
      end
  end.

(** [s.strip()] *)
Definition strip (s : string) : string := rstrip (lstrip s).

(** Truth value of a string: [not s] holds of the empty string only. *)
Definition is_empty (s : string) : bool :=
  match s with EmptyString => true | String _ _ => false end.

Fixpoint all_space (s : string) : bool :=
  match s with
  | EmptyString => true
  | String c s' => is_space c && all_space s'
  end.

(** [s.replace(old, "")] for a one-character [old]. *)
Fixpoint remove_char (old : ascii) (s : string) : string :=
  match s with
  | EmptyString => EmptyString
  | String c s' =>
      if Ascii.eqb c old then remove_char old s'
      else String c (remove_char old s')
  end.

(** [sep.join(items)] *)
Definition join (sep : string) (items : list string) : string :=
  String.concat sep items.

(** [sub in s] *)
Fixpoint contains (sub s : string) : bool :=
  String.prefix sub s
  || match s with
     | EmptyString => false
     | String _ s' => contains sub s'
     end.

(** [s1 <= s2]: lexicographic by code point, a proper prefix first. *)
Definition le (s1 s2 : string) : Prop := String.leb s1 s2 = true.

(** [str(n)] of a length, as the f-strings print it. *)
Definition of_nat (n : nat) : string :=
  NilZero.string_of_uint (Nat.to_uint n).

End Str.

(** ** Python lists: [list.sort] and [list.reverse] *)

Section PySort.
Context {A : Type} (key : A -> string).

Fixpoint insert_by (x : A) (l : list A) : list A :=
  match l with
  | [] => [x]
  | y :: l' =>
      if String.leb (key x) (key y) then x :: y :: l'
      else y :: insert_by x l'
  end.

(** Stable ascending sort on [key]: an element goes in front of the
    first element of the sorted tail whose key is not smaller, hence in
    front of the later elements with the same key. *)
Fixpoint stable_sort (l : list A) : list A :=
  match l with
  | [] => []
  | x :: l' => insert_by x (stable_sort l')
  end.

(** [l.sort(key=key, reverse=reverse)].  With [reverse=True] CPython
    reverses the list, sorts it and reverses it again, which sorts in
    descending order and keeps elements with equal keys in their
    original order. *)
Definition list_sort (reverse : bool) (l : list A) : list A :=
  if reverse then rev (stable_sort (rev l)) else stable_sort l.

End PySort.

(** ** Data model *)

(** A plugin record: a [Dict] of the JSON file, field name to string. *)
Abbreviation Plugin := (gmap string string).

(** [d.get(k, dflt)] *)
Definition dict_get {V : Type} (d : gmap string V) (k : string) (dflt : V) : V :=
  default dflt (d !! k).

(** A row of the table: the cells passed to [add_row]. *)
Abbreviation Row := (list string).

Record DataTable := mkDataTable {
  columns : list (string * string);      (* label, key *)
  rows : list Row;
  zebra_stripes : bool;
  cursor_type : string
}.

Record App := mkApp {
  plugins : list Plugin;
  filtered_plugins : list Plugin;
  sort_key : string;
  sort_reverse : bool;
  search_query : string;
  title : string;
  search_input : string;                 (* value of Input#search-input *)
  stats : string;                        (* text of Static#stats *)
  table : DataTable;                     (* DataTable#plugins-table *)
  focused : option string;               (* id of the focused widget *)
  notifications : list (string * string);(* message, severity *)
  running : bool
}.

Definition set_plugins (v : list Plugin) (s : App) : App :=
  mkApp v (filtered_plugins s) (sort_key s) (sort_reverse s) (search_query s)
    (title s) (search_input s) (stats s) (table s) (focused s)
    (notifications s) (running s).

Definition set_filtered_plugins (v : list Plugin) (s : App) : App :=
  mkApp (plugins s) v (sort_key s) (sort_reverse s) (search_query s)
    (title s) (search_input s) (stats s) (table s) (focused s)
    (notifications s) (running s).

Definition set_sort_key (v : string) (s : App) : App :=
  mkApp (plugins s) (filtered_plugins s) v (sort_reverse s) (search_query s)
    (title s) (search_input s) (stats s) (table s) (focused s)
    (notifications s) (running s).

Definition set_sort_reverse (v : bool) (s : App) : App :=
  mkApp (plugins s) (filtered_plugins s) (sort_key s) v (search_query s)
    (title s) (search_input s) (stats s) (table s) (focused s)
    (notifications s) (running s).

Definition set_search_query (v : string) (s : App) : App :=
  mkApp (plugins s) (filtered_plugins s) (sort_key s) (sort_reverse s) v
    (title s) (search_input s) (stats s) (table s) (focused s)
    (notifications s) (running s).

Definition set_title (v : string) (s : App) : App :=
  mkApp (plugins s) (filtered_plugins s) (sort_key s) (sort_reverse s)
    (search_query s) v (search_input s) (stats s) (table s) (focused s)
    (notifications s) (running s).

Definition set_search_input (v : string) (s : App) : App :=
  mkApp (plugins s) (filtered_plugins s) (sort_key s) (sort_reverse s)
    (search_query s) (title s) v (stats s) (table s) (focused s)
    (notifications s) (running s).

Definition set_stats (v : string) (s : App) : App :=
  mkApp (plugins s) (filtered_plugins s) (sort_key s) (sort_reverse s)
    (search_query s) (title s) (search_input s) v (table s) (focused s)
    (notifications s) (running s).

Definition set_table (v : DataTable) (s : App) : App :=
  mkApp (plugins s) (filtered_plugins s) (sort_key s) (sort_reverse s)
    (search_query s) (title s) (search_input s) (stats s) v (focused s)
    (notifications s) (running s).

Definition set_focused (v : option string) (s : App) : App :=
  mkApp (plugins s) (filtered_plugins s) (sort_key s) (sort_reverse s)
    (search_query s) (title s) (search_input s) (stats s) (table s) v
    (notifications s) (running s).

Definition set_notifications (v : list (string * string)) (s : App) : App :=
  mkApp (plugins s) (filtered_plugins s) (sort_key s) (sort_reverse s)
    (search_query s) (title s) (search_input s) (stats s) (table s)
    (focused s) v (running s).

Definition set_running (v : bool) (s : App) : App :=
  mkApp (plugins s) (filtered_plugins s) (sort_key s) (sort_reverse s)
    (search_query s) (title s) (search_input s) (stats s) (table s)
    (focused s) (notifications s) v.

(** ** The application *)

(** [__init__] and [compose]: empty lists, sort on "name" ascending, the
    status line as [compose] yields it, an empty table without columns. *)
Definition init : App :=
  {| plugins := [];
     filtered_plugins := [];
     sort_key := "name";
     sort_reverse := false;
     search_query := "";
     title := "PluginViewer";
     search_input := "";
     stats := "Showing 0 of 0 plugins";
     table := mkDataTable [] [] false "cell";
     focused := None;
     notifications := [];
     running := true |}.

(** What the [try] block of [load_data] meets, on the data model of the
    application: a file that holds a list of records of strings, or an
    exception raised inside the block, kept as the text [str(e)].  What
    the block does on any other content of the file is in [Untyped]
    below. *)
Inductive LoadResult :=
  | Loaded (data : list Plugin)
  | Failed (e : string).

(** [self.notify(message, severity=severity)] *)
Definition notify (message severity : string) (s : App) : App :=
  set_notifications (notifications s ++ [(message, severity)]) s.

(** [load_data].  [self.plugins.copy()] is a new list with the same
    elements; nothing below updates a list shared with [self.plugins]. *)
Definition load_data (r : LoadResult) (s : App) : App :=
  match r with
  | Loaded data =>
      let s := set_plugins data s in
      let s := set_filtered_plugins (plugins s) s in
      set_title ("Plugin Viewer - " ++ Str.of_nat (length (plugins s)) ++ " plugins") s
  | Failed e =>
      let s := set_plugins [] s in
      let s := set_filtered_plugins [] s in
      let s := set_title "Plugin Viewer - Error loading data" s in
      notify ("Error loading plugins: " ++ e) "error" s
  end.

Definition table_columns : list (string * string) :=
  [ ("Plugin Type", "type");
    ("Name", "name");
    ("Manufacturer", "manufacturer");
    ("Description", "description");
    ("Investigate", "investigate") ].

(** [table.add_column(label, key=key, width=20)] *)
Definition add_column (label key : string) (t : DataTable) : DataTable :=
  mkDataTable (columns t ++ [(label, key)]) (rows t) (zebra_stripes t) (cursor_type t).

(** [setup_table] *)
Definition setup_table (s : App) : App :=
  let t := fold_left (fun t c => add_column (fst c) (snd c) t) table_columns (table s) in
  let t := mkDataTable (columns t) (rows t) true (cursor_type t) in
  let t := mkDataTable (columns t) (rows t) (zebra_stripes t) "row" in
  set_focused (Some "plugins-table") (set_table t s).

(** [table.clear()] keeps the columns and drops the rows. *)
Definition clear (t : DataTable) : DataTable :=
  mkDataTable (columns t) [] (zebra_stripes t) (cursor_type t).

Definition add_row (cells : Row) (t : DataTable) : DataTable :=
  mkDataTable (columns t) (rows t ++ [cells]) (zebra_stripes t) (cursor_type t).

(** The cells [populate_table] passes to [add_row] for one plugin. *)
Definition row_of (plugin : Plugin) : Row :=
  [ dict_get plugin "Plugin Type" "";
    dict_get plugin "Name" "";
    dict_get plugin "Manufacturer" "";
    dict_get plugin "Description" "";
    dict_get plugin "Invsestigate" "" ].

Definition stats_text (shown total : nat) : string :=
  "Showing " ++ Str.of_nat shown ++ " of " ++ Str.of_nat total ++ " plugins".

(** [populate_table] *)
Definition populate_table (s : App) : App :=
  let t := clear (table s) in
  let t := fold_left (fun t plugin => add_row (row_of plugin) t) (filtered_plugins s) t in
  let total := length (plugins s) in
  let shown := length (filtered_plugins s) in
  set_stats (stats_text shown total) (set_table t s).

(** [on_mount] *)
Definition on_mount (r : LoadResult) (s : App) : App :=
  populate_table (setup_table (load_data r s)).

(** The dictionary literal [key_map] of [get_sort_value] and of
    [on_data_table_column_selected]. *)
Definition key_map : gmap string string :=
  <["type" := "Plugin Type"]>
  (<["name" := "Name"]>
  (<["manufacturer" := "Manufacturer"]>
  (<["description" := "Description"]>
  (<["investigate" := "Invsestigate"]> ∅)))).

(** [get_sort_value], closed over [self.sort_key].  The values are
    strings, on which [str(value)] is the identity. *)
Definition get_sort_value (sort_key : string) (plugin : Plugin) : string :=
  let field := dict_get key_map sort_key "Name" in
  let value := dict_get plugin field "" in
  Str.lower value.

(** [sort_plugins] *)
Definition sort_plugins (s : App) : App :=
  match filtered_plugins s with
  | [] => s
  | _ :: _ =>
      let l := list_sort (get_sort_value (sort_key s)) (sort_reverse s)
                 (filtered_plugins s) in
      let l := if sort_reverse s then rev l else l in
      populate_table (set_filtered_plugins l s)
  end.

(** The text a plugin is searched in. *)
Definition searchable_text (plugin : Plugin) : string :=
  Str.lower
    (Str.join " "
       [ dict_get plugin "Name" "";
         dict_get plugin "Manufacturer" "";
         dict_get plugin "Description" "";
         dict_get plugin "Plugin Type" "";
         dict_get plugin "Invsestigate" "" ]).

(** The [for] loop of [filter_plugins]: the plugins whose text contains
    [query_lower], appended one by one. *)
Fixpoint filter_loop (query_lower : string) (ps : list Plugin) (acc : list Plugin)
  : list Plugin :=
  match ps with
  | [] => acc
  | plugin :: ps' =>
      if Str.contains query_lower (searchable_text plugin)
      then filter_loop query_lower ps' (acc ++ [plugin])
      else filter_loop query_lower ps' acc
  end.

(** The list [filter_plugins] assigns to [self.filtered_plugins] before
    it calls [sort_plugins]. *)
Definition filtered_for (all : list Plugin) (query : string) : list Plugin :=
  if Str.is_empty (Str.strip query) then all
  else filter_loop (Str.lower query) all [].

(** [filter_plugins] *)
Definition filter_plugins (query : string) (s : App) : App :=
  let s := set_search_query query s in
  let s := set_filtered_plugins (filtered_for (plugins s) query) s in
  sort_plugins s.

(** [on_data_table_column_selected], on the key of the clicked column. *)
Definition on_data_table_column_selected (column_key : string) (s : App) : App :=
  let column_name := dict_get key_map column_key "Name" in
  let k := Str.remove_char " " (Str.lower column_name) in
  let s :=
    if String.eqb (sort_key s) k
    then set_sort_reverse (negb (sort_reverse s)) s
    else set_sort_reverse false (set_sort_key k s) in
  sort_plugins s.

(** An [Input.Changed] or [Input.Submitted] message. *)
Record InputMessage := mkInputMessage {
  input_id : string;
  value : string
}.

Definition on_input_submitted (event : InputMessage) (s : App) : App :=
  if String.eqb (input_id event) "search-input"
  then filter_plugins (value event) s
  else s.

Definition on_input_changed (event : InputMessage) (s : App) : App :=
  if String.eqb (input_id event) "search-input"
  then filter_plugins (value event) s
  else s.

Definition action_focus_search (s : App) : App :=
  set_focused (Some "search-input") s.

(** [action_clear_search], the body of the method.  The assignment to
    [search_input.value] changes the widget only; [self.search_query] is
    written by [filter_plugins] alone. *)
Definition action_clear_search (s : App) : App :=
  let s := set_search_input "" s in
  let s := set_filtered_plugins (plugins s) s in
  sort_plugins s.

(** ** Events

    The framework calls one handler per event, one event at a time.  A
    change of the text of the search box reaches the application as an
    [Input.Changed] message that carries the new text; the widget posts
    this message whenever its value becomes a different string, also when
    [action_clear_search] assigns it, and the message is handled once the
    body of the action has returned. *)
Inductive Event :=
  | SearchTextChanged (text : string)
  | SearchSubmitted
  | ColumnSelected (column_key : string)
  | ClearSearch
  | FocusSearchRequested
  | Quit.

Definition search_message (s : App) : InputMessage :=
  mkInputMessage "search-input" (search_input s).

Definition step (s : App) (e : Event) : App :=
  match e with
  | SearchTextChanged text =>
      let s := set_search_input text s in
      on_input_changed (search_message s) s
  | SearchSubmitted => on_input_submitted (search_message s) s
  | ColumnSelected column_key => on_data_table_column_selected column_key s
  | ClearSearch =>
      let s' := action_clear_search s in
      if String.eqb (search_input s) (search_input s') then s'
      else on_input_changed (search_message s') s'
  | FocusSearchRequested => action_focus_search s
  | Quit => set_running false s
  end.

(** The states of a session: [on_mount] on a fresh application, then any
    sequence of events. *)
Inductive reachable : App -> Prop :=
  | reachable_mount (r : LoadResult) : reachable (on_mount r init)
  | reachable_step (s : App) (e : Event) : reachable s -> reachable (step s e).

(** ** Sample data *)

Definition beta : Plugin := <["Name" := "Beta"]> (<["Manufacturer" := "X"]> ∅).
Definition alpha : Plugin := <["Name" := "alpha"]> (<["Manufacturer" := "Y"]> ∅).
Definition sample : list Plugin := [beta; alpha].
Definition mounted : App := on_mount (Loaded sample) init.

(** Two records whose order by type and order by name differ. *)
Definition synth : Plugin := <["Plugin Type" := "a"]> (<["Name" := "b"]> ∅).
Definition delay : Plugin := <["Plugin Type" := "b"]> (<["Name" := "a"]> ∅).

(** ** The vocabulary of the specification *)

(** The five columns. *)
Inductive Field := PluginType | Name | Manufacturer | Description | Investigate.

#[global] Instance Field_eq_dec : EqDecision Field.
Proof. solve_decision. Defined.

Definition fields : list Field :=
  [PluginType; Name; Manufacturer; Description; Investigate].

(** The key a column gets in [setup_table], which [key_map] knows. *)
Definition column_key (f : Field) : string :=
  match f with
  | PluginType => "type"
  | Name => "name"
  | Manufacturer => "manufacturer"
  | Description => "description"
  | Investigate => "investigate"
  end.

(** The key under which a record holds the field. *)
Definition json_key (f : Field) : string :=
  match f with
  | PluginType => "Plugin Type"
  | Name => "Name"
  | Manufacturer => "Manufacturer"
  | Description => "Description"
  | Investigate => "Invsestigate"
  end.

Definition field_value (f : Field) (plugin : Plugin) : string :=
  dict_get plugin (json_key f) "".

(** The sort key of a record for a field: the lowercased value of the
    field, the empty string when the field is missing. *)
Definition field_key (f : Field) (plugin : Plugin) : string :=
  Str.lower (field_value f plugin).

(** The application with the given visible list and sort settings. *)
Definition with_view (l : list Plugin) (k : string) (r : bool) (s : App) : App :=
  set_sort_reverse r (set_sort_key k (set_filtered_plugins l s)).

(** A list in non-decreasing order of [key]. *)
Definition ascending {A : Type} (key : A -> string) (l : list A) : Prop :=
  StronglySorted (fun x y => Str.le (key x) (key y)) l.

(** The elements of [l] whose key is [k], in the order of [l]. *)
Definition with_key {A : Type} (key : A -> string) (k : string) (l : list A)
  : list A :=
  List.filter (fun x => String.eqb (key x) k) l.

(** A record matches a query when the query is blank or occurs,
    lowercased, in the searchable text of the record. *)
Definition matches (query : string) (plugin : Plugin) : bool :=
  Str.is_empty (Str.strip query)
  || Str.contains (Str.lower query) (searchable_text plugin).

(** The table and the status line show the visible list. *)
Definition rendered (s : App) : Prop :=
  rows (table s) = map row_of (filtered_plugins s)
  /\ stats s = stats_text (length (filtered_plugins s)) (length (plugins s)).

(** The text of the search box and [self.search_query] agree, and the
    visible list holds the records of the dataset that match it. *)
Definition visible_invariant (s : App) : Prop :=
  search_query s = search_input s
  /\ Permutation (filtered_plugins s)
       (List.filter (matches (search_query s)) (plugins s)).

(** The view is up to date whenever the visible list is not empty, and
    also when the dataset itself is empty. *)
Definition view_invariant (s : App) : Prop :=
  (filtered_plugins s <> [] \/ plugins s = []) -> rendered s.

(** With an empty dataset nothing is visible and nothing is shown. *)
Definition empty_view (s : App) : Prop :=
  plugins s = [] ->
  filtered_plugins s = [] /\ rows (table s) = [] /\ stats s = stats_text 0 0.

(** The sort contract in the words of the specification: sort ascending
    by the key of the field, stably, then reverse the whole sequence if
    descending. *)
Definition spec_sort (f : Field) (descending : bool) (l : list Plugin)
  : list Plugin :=
  let asc := stable_sort (field_key f) l in
  if descending then rev asc else asc.

(** The searchable text in the words of the specification: the fields in
    the order type, name, manufacturer, description, investigate-flag. *)
Definition spec_searchable_text (plugin : Plugin) : string :=
  Str.lower (Str.join " " (map (fun f => field_value f plugin) fields)).

(** The transition on [ColumnSelected field] in the words of the
    specification, on the pair of sort field and direction. *)
Definition spec_select (f : Field) (current : Field * bool) : Field * bool :=
  if decide (f = fst current) then (fst current, negb (snd current))
  else (f, false).

(** The sort key [on_data_table_column_selected] stores for the key of
    the clicked column. *)
Definition stored_key (column_key : string) : string :=
  Str.remove_char " " (Str.lower (dict_get key_map column_key "Name")).

(** The sort keys a session can store. *)
Definition session_keys : list string :=
  ["name"; "plugintype"; "manufacturer"; "description"; "invsestigate"].

(** ** Records with arbitrary JSON values

    [json.load] may hand back records whose values are not strings.
    [" ".join] raises [TypeError] on such a value, [str(value)] and
    [add_row] accept it. *)

Module Raw.

(** A JSON value: a string, or anything else (a number, a boolean,
    null, an array, an object) with the text [str] gives for it. *)
Inductive Value :=
  | VStr (s : string)
  | VOther (shown : string).

Definition str (v : Value) : string :=
  match v with VStr s => s | VOther shown => shown end.

(** [sep.join(items)]; [None] is the [TypeError]. *)
Fixpoint join_items (items : list Value) : option (list string) :=
  match items with
  | [] => Some []
  | VStr s :: items' =>
      match join_items items' with
      | Some l => Some (s :: l)
      | None => None
      end
  | VOther _ :: _ => None
  end.

Definition join (sep : string) (items : list Value) : option string :=
  match join_items items with
  | Some l => Some (Str.join sep l)
  | None => None
  end.

Definition searchable_text (plugin : gmap string Value) : option string :=
  match
    join " "
      [ dict_get plugin "Name" (VStr "");
        dict_get plugin "Manufacturer" (VStr "");
        dict_get plugin "Description" (VStr "");
        dict_get plugin "Plugin Type" (VStr "");
        dict_get plugin "Invsestigate" (VStr "") ]
  with
  | Some t => Some (Str.lower t)
  | None => None
  end.

Fixpoint filter_loop (query_lower : string) (ps acc : list (gmap string Value))
  : option (list (gmap string Value)) :=
  match ps with
  | [] => Some acc
  | plugin :: ps' =>
      match searchable_text plugin with
      | None => None
      | Some t =>
          if Str.contains query_lower t
          then filter_loop query_lower ps' (acc ++ [plugin])
          else filter_loop query_lower ps' acc
      end
  end.

Definition filtered_for (all : list (gmap string Value)) (query : string)
  : option (list (gmap string Value)) :=
  if Str.is_empty (Str.strip query) then Some all
  else filter_loop (Str.lower query) all [].

Definition get_sort_value (sort_key : string) (plugin : gmap string Value)
  : string :=
  let field := dict_get key_map sort_key "Name" in
  let value := dict_get plugin field (VStr "") in
  Str.lower (str value).

(** The list [sort_plugins] leaves in [self.filtered_plugins]. *)
Definition sorted_for (sort_key : string) (sort_reverse : bool)
    (l : list (gmap string Value)) : list (gmap string Value) :=
  match l with
  | [] => []
  | _ :: _ =>
      let l := list_sort (get_sort_value sort_key) sort_reverse l in
      if sort_reverse then rev l else l
  end.

Definition row_of (plugin : gmap string Value) : list Value :=
  [ dict_get plugin "Plugin Type" (VStr "");
    dict_get plugin "Name" (VStr "");
    dict_get plugin "Manufacturer" (VStr "");
    dict_get plugin "Description" (VStr "");
    dict_get plugin "Invsestigate" (VStr "") ].

(** The rows [populate_table] adds. *)
Definition rows_for (l : list (gmap string Value)) : list (list Value) :=
  map row_of l.

(** A record of strings, as the specification has them. *)
Definition well_formed (plugin : gmap string Value) : Prop :=
  forall k v, plugin !! k = Some v -> exists t, v = VStr t.

(** A record of strings as a record of JSON values. *)
Definition inject (plugin : gmap string string) : gmap string Value :=
  VStr <$> plugin.

Definition is_string (v : Value) : bool :=
  match v with VStr _ => true | VOther _ => false end.

(** The five values [filter_plugins] joins are strings. *)
Definition searchable (plugin : gmap string Value) : bool :=
  forallb (fun k => is_string (dict_get plugin k (VStr "")))
    ["Name"; "Manufacturer"; "Description"; "Plugin Type"; "Invsestigate"].

End Raw.

(** ** Any content of the file

    [load_data] keeps whatever [json.load] returns; nothing checks that
    it is a list of records.  [on_mount] is followed here on every
    content of [Plugins.json], up to the table and the status line it
    leaves, or to the exception that leaves it and ends the
    application. *)

Module Untyped.

(** The values [json.load] returns; a number comes with its text, an
    object with its members under distinct keys, as the [dict] holds
    them. *)
#[local] Set Warnings "-register-all".
Inductive Json :=
  | JNull
  | JBool (b : bool)
  | JInt (shown : string)
  | JFloat (shown : string)
  | JString (s : string)
  | JArray (items : list Json)
  | JObject (members : list (string * Json)).

(** The file as the [try] block finds it: [open] raises (the file is
    missing or cannot be read), [json.load] raises (the text is not
    JSON), or [json.load] returns a value. *)
Inductive Source :=
  | OpenFails (e : string)
  | DecodeFails (e : string)
  | Parses (v : Json).

(** [type(v).__name__] *)
Definition type_name (v : Json) : string :=
  match v with
  | JNull => "NoneType"
  | JBool _ => "bool"
  | JInt _ => "int"
  | JFloat _ => "float"
  | JString _ => "str"
  | JArray _ => "list"
  | JObject _ => "dict"
  end.

(** The [try] block: the value it leaves in [self.plugins], or the text
    of the exception the [except] clause receives. *)
Inductive TryResult :=
  | Held (v : Json)
  | Raised (e : string).

(** A list and a dict have [copy] and [len]; on anything else
    [self.plugins.copy()] raises [AttributeError], inside the block. *)
Definition try_load (src : Source) : TryResult :=
  match src with
  | OpenFails e => Raised e
  | DecodeFails e => Raised e
  | Parses v =>
      match v with
      | JArray _ => Held v
      | JObject _ => Held v
      | _ => Raised ("'" ++ type_name v ++ "' object has no attribute 'copy'")
      end
  end.

(** [for plugin in v]: the items of a list, the keys of a dict. *)
Definition iterate (v : Json) : list Json :=
  match v with
  | JArray items => items
  | JObject members => map (fun m => JString (fst m)) members
  | _ => []
  end.

(** [d.get(k, dflt)] on the members of a dict. *)
Definition get (members : list (string * Json)) (k : string) (dflt : Json)
  : Json :=
  match List.find (fun m => String.eqb (fst m) k) members with
  | Some m => snd m
  | None => dflt
  end.

(** The cells of one row; [plugin.get] raises [AttributeError] unless
    [plugin] is a dict, and [None] is that exception. *)
Definition row_of (plugin : Json) : option (list Json) :=
  match plugin with
  | JObject members =>
      Some [ get members "Plugin Type" (JString "");
             get members "Name" (JString "");
             get members "Manufacturer" (JString "");
             get members "Description" (JString "");
             get members "Invsestigate" (JString "") ]
  | _ => None
  end.

(** The loop of [populate_table]. *)
Fixpoint add_rows (items : list Json) (acc : list (list Json))
  : option (list (list Json)) :=
  match items with
  | [] => Some acc
  | plugin :: items' =>
      match row_of plugin with
      | Some r => add_rows items' (acc ++ [r])
      | None => None
      end
  end.

(** What [on_mount] leaves to see. *)
Record View := mkView {
  view_title : string;
  view_notifications : list (string * string);
  view_rows : list (list Json);
  view_stats : string
}.

(** [on_mount]: [load_data], [setup_table], [populate_table]; [None]
    when an exception leaves the handler. *)
Definition on_mount (src : Source) : option View :=
  match try_load src with
  | Raised e =>
      Some (mkView "Plugin Viewer - Error loading data"
              [("Error loading plugins: " ++ e, "error")]
              [] (stats_text 0 0))
  | Held v =>
      match add_rows (iterate v) [] with
      | Some rs =>
          Some (mkView
                  ("Plugin Viewer - " ++ Str.of_nat (length (iterate v))
                   ++ " plugins")
                  [] rs
                  (stats_text (length (iterate v)) (length (iterate v))))
      | None => None
      end
  end.

(** The same view of a state of the application. *)
Definition view_of (s : App) : View :=
  mkView (title s) (notifications s)
    (map (map JString) (rows (table s))) (stats s).

(** A record of strings as [json.load] returns it. *)
Definition of_plugin (plugin : gmap string string) : Json :=
  JObject (map (fun m => (fst m, JString (snd m))) (map_to_list plugin)).

End Untyped.

(** * Facts *)

(** ** Strings *)

Module StrFacts.

Lemma compare_refl (c : ascii) : Ascii.compare c c = Eq.
Proof. unfold Ascii.compare. apply N.compare_refl. Qed.

Lemma compare_lt_trans (a b c : ascii) :
  Ascii.compare a b = Lt -> Ascii.compare b c = Lt -> Ascii.compare a c = Lt.
Proof.
  unfold Ascii.compare. rewrite !N.compare_lt_iff. lia.
Qed.

Lemma leb_refl (s : string) : String.leb s s = true.
Proof.
  destruct (String.leb_total s s); assumption.
Qed.

Lemma leb_empty (s : string) : String.leb "" s = true.
Proof. destruct s; reflexivity. Qed.

Lemma leb_trans (s1 s2 s3 : string) :
  String.leb s1 s2 = true -> String.leb s2 s3 = true -> String.leb s1 s3 = true.
Proof.
  unfold String.leb. revert s2 s3.
  induction s1 as [|a s1 IH]; intros [|b s2] [|c s3]; simpl; try done.
  destruct (Ascii.compare a b) eqn:Hab; try done;
    destruct (Ascii.compare b c) eqn:Hbc; try done.
  - apply Ascii.compare_eq_iff in Hab, Hbc. subst.
    rewrite compare_refl. apply IH.
  - apply Ascii.compare_eq_iff in Hab. subst. by rewrite Hbc.
  - apply Ascii.compare_eq_iff in Hbc. subst. by rewrite Hab.
  - by rewrite (compare_lt_trans a b c).
Qed.

Lemma leb_false (s1 s2 : string) :
  String.leb s1 s2 = false -> String.leb s2 s1 = true /\ s1 <> s2.
Proof.
  intros H. split.
  - destruct (String.leb_total s1 s2); congruence.
  - intros ->. rewrite leb_refl in H. discriminate.
Qed.

Lemma le_empty (s : string) : Str.le "" s.
Proof. apply leb_empty. Qed.

(** [strip] leaves nothing exactly of the strings made of white space. *)
Lemma lstrip_all_space (s : string) :
  Str.all_space s = true -> Str.lstrip s = "".
Proof.
  induction s as [|c s IH]; simpl; [done|].
  destruct (Str.is_space c); simpl; [exact IH | done].
Qed.

Lemma rstrip_all_space (s : string) :
  Str.is_empty (Str.rstrip s) = Str.all_space s.
Proof.
  induction s as [|c s IH]; simpl; [done|].
  destruct (Str.rstrip s); simpl in *.
  - rewrite <- IH. destruct (Str.is_space c); done.
  - rewrite <- IH. by rewrite andb_false_r.
Qed.

Lemma lstrip_head (s : string) :
  match Str.lstrip s with
  | EmptyString => Str.all_space s = true
  | String c _ => Str.is_space c = false /\ Str.all_space s = false
  end.
Proof.
  induction s as [|c s IH]; simpl; [done|].
  destruct (Str.is_space c) eqn:Hc; simpl; [|done].
  destruct (Str.lstrip s); [done|]. exact IH.
Qed.

Lemma strip_blank (s : string) :
  Str.is_empty (Str.strip s) = Str.all_space s.
Proof.
  unfold Str.strip. rewrite rstrip_all_space.
  pose proof (lstrip_head s) as H.
  destruct (Str.lstrip s) as [|c t]; simpl.
  - by rewrite H.
  - destruct H as [-> ->]. done.
Qed.

Lemma append_cons (c : ascii) (a b : string) :
  String c a ++ b = String c (a ++ b).
Proof. reflexivity. Qed.

Lemma append_nil (b : string) : "" ++ b = b.
Proof. reflexivity. Qed.

Lemma prefix_app (sub s : string) :
  String.prefix sub s = true <-> exists b, s = sub ++ b.
Proof.
  revert s. induction sub as [|c sub IH]; intros s; simpl.
  - destruct s; split; eauto.
  - destruct s as [|d s]; simpl.
    + split; [done | intros [b Hb]; discriminate].
    + setoid_rewrite append_cons.
      destruct (ascii_dec c d) as [->|Hne].
      * rewrite IH. split; intros [b Hb]; exists b; congruence.
      * split; [done | intros [b Hb]; congruence].
Qed.

Lemma contains_nil (sub : string) :
  Str.contains sub "" = String.prefix sub "" || false.
Proof. reflexivity. Qed.

Lemma contains_cons (sub : string) (c : ascii) (s : string) :
  Str.contains sub (String c s)
  = String.prefix sub (String c s) || Str.contains sub s.
Proof. reflexivity. Qed.

(** [contains] is the substring test. *)
Lemma contains_spec (sub s : string) :
  Str.contains sub s = true <-> exists a b, s = a ++ sub ++ b.
Proof.
  induction s as [|c s IH]; [rewrite contains_nil | rewrite contains_cons].
  - rewrite orb_false_r, prefix_app. split.
    + intros [b Hb]. by exists "", b.
    + intros [a [b Hb]]. destruct a; [by exists b | discriminate].
  - rewrite orb_true_iff, IH, prefix_app. split.
    + intros [[b Hb] | [a [b Hb]]].
      * by exists "", b.
      * exists (String c a), b. rewrite append_cons. by rewrite Hb.
    + intros [[|d a] [b Hb]].
      * left. by exists b.
      * right. exists a, b. rewrite append_cons in Hb. congruence.
Qed.

End StrFacts.

(** ** Sorting *)

Section PySortFacts.
Context {A : Type} (key : A -> string).

Lemma insert_by_perm (x : A) (l : list A) :
  Permutation (insert_by key x l) (x :: l).
Proof.
  induction l as [|y l IH]; simpl; [done|].
  destruct (String.leb (key x) (key y)); [done|].
  rewrite IH. apply perm_swap.
Qed.

Lemma stable_sort_perm (l : list A) : Permutation (stable_sort key l) l.
Proof.
  induction l as [|x l IH]; simpl; [done|].
  rewrite insert_by_perm. by constructor.
Qed.

Lemma insert_by_ascending (x : A) (l : list A) :
  ascending key l -> ascending key (insert_by key x l).
Proof.
  unfold ascending. induction 1 as [|y l Hl IH Hy]; simpl.
  - repeat constructor.
  - destruct (String.leb (key x) (key y)) eqn:Hxy.
    + constructor; [by constructor|].
      constructor; [exact Hxy|].
      eapply Forall_impl; [exact Hy|].
      intros z Hz. exact (StrFacts.leb_trans _ _ _ Hxy Hz).
    + constructor; [exact IH|].
      rewrite insert_by_perm. constructor; [|exact Hy].
      by apply StrFacts.leb_false in Hxy as [? _].
Qed.

Lemma stable_sort_ascending (l : list A) : ascending key (stable_sort key l).
Proof.
  induction l as [|x l IH]; simpl.
  - constructor.
  - by apply insert_by_ascending.
Qed.

Lemma with_key_cons (k : string) (x : A) (l : list A) :
  with_key key k (x :: l)
  = if String.eqb (key x) k then x :: with_key key k l else with_key key k l.
Proof. reflexivity. Qed.

Lemma insert_by_with_key (k : string) (x : A) (l : list A) :
  with_key key k (insert_by key x l) = with_key key k (x :: l).
Proof.
  induction l as [|y l IH]; simpl insert_by; [done|].
  destruct (String.leb (key x) (key y)) eqn:Hxy; [done|].
  rewrite (with_key_cons k y), IH, !with_key_cons.
  destruct (String.eqb_spec (key x) k) as [Hx|Hx];
    destruct (String.eqb_spec (key y) k) as [Hy|Hy]; try done.
  apply StrFacts.leb_false in Hxy as [_ Hne]. congruence.
Qed.

(** Stability: the elements of any one key come out in the order in
    which they went in. *)
Lemma stable_sort_with_key (k : string) (l : list A) :
  with_key key k (stable_sort key l) = with_key key k l.
Proof.
  induction l as [|x l IH]; simpl stable_sort; [done|].
  by rewrite insert_by_with_key, !with_key_cons, IH.
Qed.

Lemma with_key_rev (k : string) (l : list A) :
  with_key key k (rev l) = rev (with_key key k l).
Proof.
  unfold with_key. induction l as [|x l IH]; simpl; [done|].
  rewrite List.filter_app, IH. simpl.
  destruct (String.eqb (key x) k); simpl; [done|]. by rewrite app_nil_r.
Qed.

Lemma stable_sort_ext (key' : A -> string) (l : list A) :
  (forall x, key x = key' x) -> stable_sort key l = stable_sort key' l.
Proof.
  intros H. induction l as [|x l IH]; simpl; [done|]. rewrite IH.
  generalize (stable_sort key' l). intros m.
  induction m as [|y m IHm]; simpl; [done|].
  by rewrite !H, IHm.
Qed.

(** What [l.sort(key, reverse)] followed by [l.reverse()] under the
    same flag leaves in [l]. *)
Lemma sort_then_reverse (r : bool) (l : list A) :
  (if r then rev (list_sort key r l) else list_sort key r l)
  = stable_sort key (if r then rev l else l).
Proof.
  destruct r; simpl; [apply rev_involutive | done].
Qed.

End PySortFacts.

(** ** View binding *)

Lemma add_rows_rows (l : list Plugin) (t : DataTable) :
  rows (fold_left (fun t plugin => add_row (row_of plugin) t) l t)
  = (rows t ++ map row_of l)%list.
Proof.
  revert t. induction l as [|p l IH]; intros t; simpl.
  - by rewrite app_nil_r.
  - rewrite IH. simpl. by rewrite <- app_assoc.
Qed.

Lemma populate_table_rendered (s : App) : rendered (populate_table s).
Proof.
  split; [|reflexivity].
  unfold populate_table. cbn [table set_stats set_table filtered_plugins].
  by rewrite add_rows_rows.
Qed.

(** ** [sort_plugins] *)

Lemma sort_plugins_empty (s : App) :
  filtered_plugins s = [] -> sort_plugins s = s.
Proof. unfold sort_plugins. by intros ->. Qed.

Lemma sort_plugins_filtered (s : App) :
  filtered_plugins (sort_plugins s)
  = stable_sort (get_sort_value (sort_key s))
      (if sort_reverse s then rev (filtered_plugins s) else filtered_plugins s).
Proof.
  unfold sort_plugins. destruct (filtered_plugins s) as [|p l] eqn:E.
  - rewrite E. by destruct (sort_reverse s).
  - cbn [populate_table filtered_plugins set_stats set_table set_filtered_plugins].
    apply sort_then_reverse.
Qed.

Lemma sort_plugins_perm (s : App) :
  Permutation (filtered_plugins (sort_plugins s)) (filtered_plugins s).
Proof.
  rewrite sort_plugins_filtered, stable_sort_perm.
  destruct (sort_reverse s); [symmetry; apply Permutation_rev | done].
Qed.

(** Whatever the direction flag, the list comes out in ascending order. *)
Lemma sort_plugins_ascending (s : App) :
  ascending (get_sort_value (sort_key s)) (filtered_plugins (sort_plugins s)).
Proof. rewrite sort_plugins_filtered. apply stable_sort_ascending. Qed.

Lemma sort_plugins_rendered (s : App) :
  filtered_plugins s <> [] -> rendered (sort_plugins s).
Proof.
  unfold sort_plugins. destruct (filtered_plugins s); [done|].
  intros _. apply populate_table_rendered.
Qed.

Lemma sort_plugins_frame (s : App) :
  plugins (sort_plugins s) = plugins s
  /\ sort_key (sort_plugins s) = sort_key s
  /\ sort_reverse (sort_plugins s) = sort_reverse s
  /\ search_query (sort_plugins s) = search_query s
  /\ search_input (sort_plugins s) = search_input s
  /\ running (sort_plugins s) = running s.
Proof. unfold sort_plugins. by destruct (filtered_plugins s). Qed.

Lemma sort_plugins_plugins (s : App) : plugins (sort_plugins s) = plugins s.
Proof. apply sort_plugins_frame. Qed.

Lemma sort_plugins_sort_key (s : App) : sort_key (sort_plugins s) = sort_key s.
Proof. apply sort_plugins_frame. Qed.

Lemma sort_plugins_sort_reverse (s : App) :
  sort_reverse (sort_plugins s) = sort_reverse s.
Proof. apply sort_plugins_frame. Qed.

Lemma sort_plugins_search_query (s : App) :
  search_query (sort_plugins s) = search_query s.
Proof. apply sort_plugins_frame. Qed.

Lemma sort_plugins_search_input (s : App) :
  search_input (sort_plugins s) = search_input s.
Proof. apply sort_plugins_frame. Qed.

(** The view after [sort_plugins]: up to date when the list is not
    empty, untouched when it is. *)
Lemma sort_plugins_view (s : App) :
  (filtered_plugins s = [] -> plugins s = [] -> rendered s) ->
  view_invariant (sort_plugins s).
Proof.
  intros H. destruct (filtered_plugins s) as [|p l] eqn:E.
  - rewrite (sort_plugins_empty s E). intros [Hne | Hnil]; [done|].
    by apply H.
  - intros _. apply sort_plugins_rendered. by rewrite E.
Qed.

(** ** The sort key of a field *)

Lemma key_map_column (f : Field) : key_map !! column_key f = Some (json_key f).
Proof. by destruct f. Qed.

Lemma key_map_other (k : string) :
  ~ In k (map column_key fields) -> key_map !! k = None.
Proof.
  intros H. unfold key_map.
  rewrite !lookup_insert_ne; [apply lookup_empty | ..];
    intros <-; apply H; simpl; tauto.
Qed.

Lemma get_sort_value_column (f : Field) (plugin : Plugin) :
  get_sort_value (column_key f) plugin = field_key f plugin.
Proof.
  unfold get_sort_value, dict_get at 2. by rewrite key_map_column.
Qed.

Lemma get_sort_value_other (k : string) (plugin : Plugin) :
  ~ In k (map column_key fields) ->
  get_sort_value k plugin = field_key Name plugin.
Proof.
  intros H. unfold get_sort_value, dict_get at 2. by rewrite key_map_other.
Qed.

Lemma field_value_missing (f : Field) (plugin : Plugin) :
  field_value f (delete (json_key f) plugin) = "".
Proof. unfold field_value, dict_get. by rewrite lookup_delete_eq. Qed.

(** ** The filter *)

Lemma filter_loop_spec (query_lower : string) (ps acc : list Plugin) :
  filter_loop query_lower ps acc
  = (acc ++ List.filter
              (fun plugin => Str.contains query_lower (searchable_text plugin))
              ps)%list.
Proof.
  revert acc. induction ps as [|p ps IH]; intros acc; simpl.
  - by rewrite app_nil_r.
  - destruct (Str.contains query_lower (searchable_text p)); rewrite IH.
    + by rewrite <- app_assoc.
    + done.
Qed.

Lemma filter_true {A : Type} (l : list A) : List.filter (fun _ => true) l = l.
Proof. induction l as [|x l IH]; simpl; congruence. Qed.

Lemma filtered_for_matches (all : list Plugin) (query : string) :
  filtered_for all query = List.filter (matches query) all.
Proof.
  unfold filtered_for, matches.
  destruct (Str.is_empty (Str.strip query)); simpl.
  - by rewrite filter_true.
  - by rewrite filter_loop_spec.
Qed.

Lemma filtered_for_blank (all : list Plugin) : filtered_for all "" = all.
Proof. reflexivity. Qed.

Lemma filter_plugins_filtered (query : string) (s : App) :
  Permutation (filtered_plugins (filter_plugins query s))
    (List.filter (matches query) (plugins s)).
Proof.
  unfold filter_plugins. rewrite sort_plugins_perm.
  cbn [filtered_plugins set_filtered_plugins set_search_query plugins].
  by rewrite filtered_for_matches.
Qed.

Lemma filter_plugins_frame (query : string) (s : App) :
  plugins (filter_plugins query s) = plugins s
  /\ search_query (filter_plugins query s) = query
  /\ search_input (filter_plugins query s) = search_input s
  /\ sort_key (filter_plugins query s) = sort_key s
  /\ sort_reverse (filter_plugins query s) = sort_reverse s.
Proof.
  unfold filter_plugins.
  destruct (sort_plugins_frame
    (set_filtered_plugins
       (filtered_for (plugins (set_search_query query s)) query)
       (set_search_query query s))) as (-> & -> & -> & -> & -> & _).
  done.
Qed.

(** ** Invariants of a session *)

Lemma permutation_of_nil {A : Type} (l : list A) : Permutation l [] -> l = [].
Proof. intros H. apply Permutation_nil. by symmetry. Qed.

Lemma visible_invariant_mount (r : LoadResult) : visible_invariant (on_mount r init).
Proof.
  destruct r as [data|e]; split; try reflexivity.
  change (Permutation data (List.filter (matches "") data)).
  by rewrite <- filtered_for_matches.
Qed.

Lemma rendered_mount (r : LoadResult) : rendered (on_mount r init).
Proof. apply populate_table_rendered. Qed.

Lemma filter_plugins_visible (query : string) (s : App) :
  search_input s = query -> visible_invariant (filter_plugins query s).
Proof.
  intros Hq. destruct (filter_plugins_frame query s) as (Hp & Hs & Hi & _).
  split.
  - by rewrite Hs, Hi.
  - rewrite Hs, Hp. apply filter_plugins_filtered.
Qed.

Lemma action_clear_search_filtered (s : App) :
  filtered_plugins (action_clear_search s)
  = stable_sort (get_sort_value (sort_key s))
      (if sort_reverse s then rev (plugins s) else plugins s).
Proof. unfold action_clear_search. by rewrite sort_plugins_filtered. Qed.

Lemma action_clear_search_frame (s : App) :
  plugins (action_clear_search s) = plugins s
  /\ sort_key (action_clear_search s) = sort_key s
  /\ sort_reverse (action_clear_search s) = sort_reverse s
  /\ search_query (action_clear_search s) = search_query s
  /\ search_input (action_clear_search s) = "".
Proof.
  unfold action_clear_search.
  destruct (sort_plugins_frame
    (set_filtered_plugins (plugins (set_search_input "" s))
       (set_search_input "" s))) as (-> & -> & -> & -> & -> & _).
  done.
Qed.

(** The dataset is never written after [load_data]. *)
Lemma step_plugins (s : App) (e : Event) : plugins (step s e) = plugins s.
Proof.
  destruct e; simpl step; unfold on_input_changed, on_input_submitted,
    on_data_table_column_selected, search_message; simpl;
    repeat match goal with
      | |- context [if ?b then _ else _] => destruct b
      end;
    rewrite ?(proj1 (filter_plugins_frame _ _)),
            ?(proj1 (action_clear_search_frame _)), ?sort_plugins_plugins;
    reflexivity.
Qed.

Lemma on_input_changed_search (s : App) :
  on_input_changed (search_message s) s = filter_plugins (search_input s) s.
Proof. reflexivity. Qed.

Lemma on_input_submitted_search (s : App) :
  on_input_submitted (search_message s) s = filter_plugins (search_input s) s.
Proof. reflexivity. Qed.

Lemma step_clear_search (s : App) :
  step s ClearSearch
  = if String.eqb (search_input s) ""
    then action_clear_search s
    else filter_plugins "" (action_clear_search s).
Proof.
  simpl step. rewrite on_input_changed_search.
  destruct (action_clear_search_frame s) as (_ & _ & _ & _ & ->). done.
Qed.

Lemma on_data_table_column_selected_perm (column_key : string) (s : App) :
  Permutation (filtered_plugins (on_data_table_column_selected column_key s))
    (filtered_plugins s).
Proof.
  unfold on_data_table_column_selected. rewrite sort_plugins_perm.
  by destruct (String.eqb _ _).
Qed.

Lemma on_data_table_column_selected_frame (column_key : string) (s : App) :
  plugins (on_data_table_column_selected column_key s) = plugins s
  /\ search_query (on_data_table_column_selected column_key s) = search_query s
  /\ search_input (on_data_table_column_selected column_key s) = search_input s.
Proof.
  unfold on_data_table_column_selected.
  rewrite sort_plugins_plugins, sort_plugins_search_query,
    sort_plugins_search_input.
  by destruct (String.eqb _ _).
Qed.

Lemma step_visible (s : App) (e : Event) :
  visible_invariant s -> visible_invariant (step s e).
Proof.
  intros [Hq Hv]. destruct e as [text| |k| | |].
  - simpl step. rewrite on_input_changed_search. by apply filter_plugins_visible.
  - simpl step. rewrite on_input_submitted_search. by apply filter_plugins_visible.
  - simpl step.
    destruct (on_data_table_column_selected_frame k s) as (Hp & Hs & Hi).
    split; [by rewrite Hs, Hi|].
    by rewrite Hs, Hp, on_data_table_column_selected_perm.
  - rewrite step_clear_search.
    destruct (action_clear_search_frame s) as (Hp & _ & _ & Hs & Hi).
    destruct (String.eqb_spec (search_input s) "") as [E|E].
    + split; [by rewrite Hs, Hi, Hq|].
      rewrite Hs, Hp, Hq, E, <- filtered_for_matches, filtered_for_blank.
      rewrite action_clear_search_filtered, stable_sort_perm.
      destruct (sort_reverse s); [symmetry; apply Permutation_rev | done].
    + by apply filter_plugins_visible.
  - exact (conj Hq Hv).
  - exact (conj Hq Hv).
Qed.

Lemma invariants_empty_view (s : App) :
  visible_invariant s -> view_invariant s -> empty_view s.
Proof.
  intros [_ Hv] Hview Hp. rewrite Hp in Hv. simpl in Hv.
  apply permutation_of_nil in Hv.
  destruct Hview as [Hr Hs]; [by right|].
  rewrite Hv in Hr, Hs. rewrite Hp in Hs. done.
Qed.

Lemma sort_plugins_empty_view (s : App) :
  empty_view s -> empty_view (sort_plugins s).
Proof.
  intros H Hp. rewrite sort_plugins_plugins in Hp.
  destruct (H Hp) as (Hf & Hr & Hs).
  by rewrite (sort_plugins_empty s Hf).
Qed.

Lemma sort_plugins_view_invariant (s : App) :
  empty_view s -> view_invariant (sort_plugins s).
Proof.
  intros H. apply sort_plugins_view. intros Hf Hp.
  destruct (H Hp) as (_ & Hr & Hs).
  split; [by rewrite Hr, Hf | by rewrite Hs, Hf, Hp].
Qed.

Lemma filter_plugins_empty_view (query : string) (s : App) :
  empty_view s -> empty_view (filter_plugins query s).
Proof.
  intros H. apply sort_plugins_empty_view. intros Hp.
  destruct (H Hp) as (_ & Hr & Hs).
  split; [|done]. simpl in *. rewrite Hp. by rewrite filtered_for_matches.
Qed.

Lemma filter_plugins_view (query : string) (s : App) :
  empty_view s -> view_invariant (filter_plugins query s).
Proof.
  intros H. apply sort_plugins_view_invariant. intros Hp.
  destruct (H Hp) as (_ & Hr & Hs).
  split; [|done]. simpl in *. rewrite Hp. by rewrite filtered_for_matches.
Qed.

Lemma action_clear_search_empty_view (s : App) :
  empty_view s -> empty_view (action_clear_search s).
Proof.
  intros H. apply sort_plugins_empty_view. intros Hp.
  destruct (H Hp) as (_ & Hr & Hs). done.
Qed.

Lemma action_clear_search_view (s : App) :
  empty_view s -> view_invariant (action_clear_search s).
Proof.
  intros H. apply sort_plugins_view_invariant. intros Hp.
  destruct (H Hp) as (_ & Hr & Hs). done.
Qed.

Lemma step_view (s : App) (e : Event) :
  visible_invariant s -> view_invariant s -> view_invariant (step s e).
Proof.
  intros Hvis Hview.
  pose proof (invariants_empty_view s Hvis Hview) as He.
  destruct e as [text| |k| | |].
  - simpl step. rewrite on_input_changed_search. by apply filter_plugins_view.
  - simpl step. rewrite on_input_submitted_search. by apply filter_plugins_view.
  - simpl step. unfold on_data_table_column_selected.
    apply sort_plugins_view_invariant. by destruct (String.eqb _ _).
  - rewrite step_clear_search. destruct (String.eqb _ _).
    + by apply action_clear_search_view.
    + by apply filter_plugins_view, action_clear_search_empty_view.
  - exact Hview.
  - exact Hview.
Qed.

Lemma reachable_invariants (s : App) :
  reachable s -> visible_invariant s /\ view_invariant s.
Proof.
  induction 1 as [r|s e _ [Hvis Hview]].
  - split; [apply visible_invariant_mount | intros _; apply rendered_mount].
  - split; [by apply step_visible | by apply step_view].
Qed.

(** ** Records with arbitrary JSON values *)

Module RawFacts.
Lemma get_well_formed (plugin : gmap string Raw.Value) (k : string) :
  Raw.well_formed plugin -> exists t, dict_get plugin k (Raw.VStr "") = Raw.VStr t.
Proof.
  intros H. unfold dict_get. destruct (plugin !! k) as [v|] eqn:E; simpl.
  - exact (H k v E).
  - by exists "".
Qed.

Lemma searchable_text_well_formed (plugin : gmap string Raw.Value) :
  Raw.well_formed plugin -> exists t, Raw.searchable_text plugin = Some t.
Proof.
  intros H. unfold Raw.searchable_text, Raw.join.
  destruct (get_well_formed plugin "Name" H) as [t1 ->].
  destruct (get_well_formed plugin "Manufacturer" H) as [t2 ->].
  destruct (get_well_formed plugin "Description" H) as [t3 ->].
  destruct (get_well_formed plugin "Plugin Type" H) as [t4 ->].
  destruct (get_well_formed plugin "Invsestigate" H) as [t5 ->].
  cbn [Raw.join_items]. eauto.
Qed.

Lemma filter_loop_well_formed (query_lower : string)
    (ps acc : list (gmap string Raw.Value)) :
  Forall Raw.well_formed ps -> exists l, Raw.filter_loop query_lower ps acc = Some l.
Proof.
  intros H. revert acc. induction H as [|p ps Hp _ IH]; intros acc; simpl.
  - eauto.
  - destruct (searchable_text_well_formed p Hp) as [t ->].
    destruct (Str.contains query_lower t); apply IH.
Qed.

Lemma inject_well_formed (plugin : gmap string string) :
  Raw.well_formed (Raw.inject plugin).
Proof.
  intros k v. unfold Raw.inject. rewrite lookup_fmap.
  destruct (plugin !! k) as [t|]; simpl; [|done].
  intros [= <-]. eauto.
Qed.

Lemma get_inject (plugin : gmap string string) (k : string) :
  dict_get (Raw.inject plugin) k (Raw.VStr "") = Raw.VStr (dict_get plugin k "").
Proof.
  unfold dict_get, Raw.inject. rewrite lookup_fmap. by destruct (plugin !! k).
Qed.

(** On records of strings the operations on JSON values are the ones
    of the application. *)
Lemma searchable_text_inject (plugin : gmap string string) :
  Raw.searchable_text (Raw.inject plugin) = Some (searchable_text plugin).
Proof. unfold Raw.searchable_text. by rewrite !get_inject. Qed.

Lemma filter_loop_inject (query_lower : string)
    (ps acc : list (gmap string string)) :
  Raw.filter_loop query_lower (map Raw.inject ps) (map Raw.inject acc)
  = Some (map Raw.inject (filter_loop query_lower ps acc)).
Proof.
  revert acc. induction ps as [|p ps IH]; intros acc; simpl; [done|].
  rewrite searchable_text_inject.
  destruct (Str.contains query_lower (searchable_text p)); [|apply IH].
  rewrite <- IH. by rewrite List.map_app.
Qed.

Lemma filtered_for_inject (all : list (gmap string string)) (query : string) :
  Raw.filtered_for (map Raw.inject all) query
  = Some (map Raw.inject (filtered_for all query)).
Proof.
  unfold Raw.filtered_for, filtered_for.
  destruct (Str.is_empty (Str.strip query)); [done|].
  apply (filter_loop_inject _ all []).
Qed.

Lemma get_sort_value_inject (sort_key : string) (plugin : gmap string string) :
  Raw.get_sort_value sort_key (Raw.inject plugin) = get_sort_value sort_key plugin.
Proof. unfold Raw.get_sort_value. by rewrite get_inject. Qed.

Lemma row_of_inject (plugin : gmap string string) :
  Raw.row_of (Raw.inject plugin) = map Raw.VStr (row_of plugin).
Proof. unfold Raw.row_of. by rewrite !get_inject. Qed.

Lemma sorted_for_perm (sort_key : string) (sort_reverse : bool)
    (l : list (gmap string Raw.Value)) :
  Permutation (Raw.sorted_for sort_key sort_reverse l) l.
Proof.
  destruct l as [|p l]; [done|]. unfold Raw.sorted_for.
  rewrite sort_then_reverse, stable_sort_perm.
  destruct sort_reverse; [symmetry; apply Permutation_rev | done].
Qed.

(** A value that is not a string makes the filter raise. *)
Lemma filtered_for_raises :
  Raw.filtered_for [ <["Name" := Raw.VOther "5"]> ∅ ] "5" = None.
Proof. reflexivity. Qed.

Lemma field_keys_distinct (f g : Field) : f <> g -> json_key f <> json_key g.
Proof. by destruct f, g. Qed.

Lemma get_missing (f g : Field) (plugin : gmap string Raw.Value) :
  dict_get (delete (json_key f) plugin) (json_key g) (Raw.VStr "")
  = dict_get (<[json_key f := Raw.VStr ""]> plugin) (json_key g) (Raw.VStr "").
Proof.
  unfold dict_get. destruct (decide (f = g)) as [<-|Hne].
  - by rewrite lookup_delete_eq, lookup_insert_eq.
  - apply field_keys_distinct in Hne.
    by rewrite lookup_delete_ne, lookup_insert_ne.
Qed.

End RawFacts.

(** * The claims *)

(** C1 (the code departs from the claim).  On the dataset [Beta(X),
    alpha(Y)] sorted on Name, the descending sort of the code is not the
    reversal of its ascending sort: [sort(reverse=True)] followed by
    [reverse()] undoes the reversal, so both directions give [alpha,
    Beta], where the two-step contract gives [Beta, alpha]; in a session,
    selecting the Name column sets the descending flag and leaves the
    order [alpha, Beta]. *)
Theorem descending_sort_comes_out_ascending :
  filtered_plugins (sort_plugins (with_view sample "name" false init))
    = [alpha; beta]
  /\ filtered_plugins (sort_plugins (with_view sample "name" true init))
    = [alpha; beta]
  /\ spec_sort Name true sample = [beta; alpha]
  /\ (let s := step (step mounted (SearchTextChanged "")) (ColumnSelected "name") in
      sort_key s = "name" /\ sort_reverse s = true
      /\ filtered_plugins s = [alpha; beta]).
Proof. vm_compute. repeat split; reflexivity. Qed.

(** C2, as amended.  The list the filter produces is the whole dataset,
    in its order, when the query is empty or made of white space only;
    otherwise it is the dataset restricted, in its order, to the records
    whose lowercased text contains the lowercased query, the text being
    the fields joined by single spaces in the order name, manufacturer,
    description, type, investigate-flag; a missing field is read as the
    empty string. *)
Theorem filter_contract (D : list Plugin) (q : string) :
  filtered_for D q
  = (if Str.all_space q then D
     else List.filter
            (fun p =>
               Str.contains (Str.lower q)
                 (Str.lower
                    (Str.join " "
                       [ field_value Name p; field_value Manufacturer p;
                         field_value Description p; field_value PluginType p;
                         field_value Investigate p ])))
            D)
  /\ (forall f p, field_value f (delete (json_key f) p) = "").
Proof.
  split; [|apply field_value_missing].
  unfold filtered_for. rewrite StrFacts.strip_blank.
  destruct (Str.all_space q); [done|]. apply filter_loop_spec.
Qed.

(** C2 as stated fails: with the fields taken in the order type, name,
    manufacturer, description, investigate-flag, the record of type "a"
    and name "b" contains the query "a b", and the filter leaves it out. *)
Lemma filter_field_order_counterexample :
  ~ (forall p : Plugin,
       In p (filtered_for [synth] "a b")
       <-> In p [synth]
           /\ Str.contains (Str.lower "a b") (spec_searchable_text p) = true).
Proof.
  intros H. destruct (H synth) as [_ Hin].
  assert (In synth (filtered_for [synth] "a b")) as Habs.
  { apply Hin. split; [by left | reflexivity]. }
  vm_compute in Habs. exact Habs.
Qed.

(** C3 (the code departs from the claim).  Selecting the Plugin Type
    column stores the sort key "plugintype", which [get_sort_value] does
    not know and reads as Name: the records come out ordered by name,
    [delay, synth], where the order by type is [synth, delay].  The
    Investigate column likewise stores "invsestigate". *)
Theorem type_column_sorts_by_name :
  (let s := step (on_mount (Loaded [synth; delay]) init) (ColumnSelected "type") in
   sort_key s = "plugintype" /\ sort_reverse s = false
   /\ filtered_plugins s = [delay; synth])
  /\ spec_sort PluginType false [synth; delay] = [synth; delay]
  /\ spec_select PluginType (Name, false) = (PluginType, false)
  /\ sort_key (step (on_mount (Loaded [synth; delay]) init) (ColumnSelected "investigate"))
     = "invsestigate"
  /\ (forall p, get_sort_value "plugintype" p = field_key Name p)
  /\ (forall p, get_sort_value "invsestigate" p = field_key Name p).
Proof.
  split; [vm_compute; repeat split; reflexivity|].
  split; [vm_compute; reflexivity|].
  split; [reflexivity|].
  split; [vm_compute; reflexivity|].
  split; intros p; apply get_sort_value_other; simpl; intuition discriminate.
Qed.

(** C4 (the code departs from the claim).  A search that matches nothing
    empties the visible list, and [sort_plugins] returns before
    [populate_table]: the table keeps its two rows and the status line
    still reads "Showing 2 of 2 plugins". *)
Theorem empty_search_result_leaves_view_stale :
  let s := step mounted (SearchTextChanged "zzz") in
  search_query s = "zzz"
  /\ filtered_plugins s = []
  /\ rows (table s) = [ [""; "Beta"; "X"; ""; ""]; [""; "alpha"; "Y"; ""; ""] ]
  /\ stats s = "Showing 2 of 2 plugins"
  /\ ~ rendered s.
Proof.
  vm_compute. repeat split; try reflexivity.
  intros [H _]. discriminate H.
Qed.

(** C5.  Sorting ascending on a field leaves the visible list in
    non-decreasing order of the lowercased value of the field and is
    stable: it is a rearrangement of the input in which the records of
    any one key keep their order.  A record without the field has the
    empty key, which no key precedes. *)
Theorem sort_ascending_stable (f : Field) (S : list Plugin) (s : App) :
  let R := filtered_plugins (sort_plugins (with_view S (column_key f) false s)) in
  ascending (field_key f) R
  /\ Permutation R S
  /\ (forall k, with_key (field_key f) k R = with_key (field_key f) k S)
  /\ (forall p, field_key f (delete (json_key f) p) = "")
  /\ (forall t, Str.le "" t).
Proof.
  intros R. subst R. rewrite sort_plugins_filtered.
  cbn [with_view sort_key sort_reverse filtered_plugins set_sort_reverse
       set_sort_key set_filtered_plugins].
  rewrite (stable_sort_ext _ (field_key f)) by apply get_sort_value_column.
  split; [apply stable_sort_ascending|].
  split; [apply stable_sort_perm|].
  split; [intros k; apply stable_sort_with_key|].
  split; [|apply StrFacts.le_empty].
  intros p. unfold field_key. by rewrite field_value_missing.
Qed.

(** C6.  In every state of a session, ClearSearch empties the search box
    and, once the message of the box has been handled, the stored query;
    the visible list becomes the full dataset as [sort_plugins] orders
    it, that is the stable sort of the dataset (of the reversed dataset
    under the descending flag) on the current sort value, in ascending
    order; the table shows one row per record of that list and the
    status line counts the whole dataset; the sort key, the direction
    and the dataset are as before. *)
Theorem clear_search_effect (s : App) :
  reachable s ->
  let s1 := action_clear_search s in
  let s2 := step s ClearSearch in
  search_input s1 = "" /\ search_input s2 = "" /\ search_query s2 = ""
  /\ filtered_plugins s2
     = filtered_plugins (sort_plugins (set_filtered_plugins (plugins s) s))
  /\ filtered_plugins s1 = filtered_plugins s2
  /\ Permutation (filtered_plugins s2) (plugins s)
  /\ rendered s2
  /\ sort_key s2 = sort_key s /\ sort_reverse s2 = sort_reverse s
  /\ plugins s2 = plugins s
  /\ filtered_plugins s2
     = stable_sort (get_sort_value (sort_key s))
         (if sort_reverse s then rev (plugins s) else plugins s)
  /\ ascending (get_sort_value (sort_key s2)) (filtered_plugins s2)
  /\ rows (table s2)
     = map row_of
         (stable_sort (get_sort_value (sort_key s))
            (if sort_reverse s then rev (plugins s) else plugins s))
  /\ stats s2 = stats_text (length (plugins s)) (length (plugins s)).
Proof.
  intros Hreach s1 s2. subst s1 s2.
  destruct (reachable_invariants s Hreach) as [Hvis Hview].
  destruct (action_clear_search_frame s) as (Hp1 & Hk1 & Hr1 & Hq1 & Hi1).
  pose proof (action_clear_search_filtered s) as Hf1.
  assert (filtered_plugins (sort_plugins (set_filtered_plugins (plugins s) s))
          = filtered_plugins (action_clear_search s)) as Hsort.
  { by rewrite Hf1, sort_plugins_filtered. }
  assert (filtered_plugins (step s ClearSearch)
            = filtered_plugins (action_clear_search s)
          /\ search_input (step s ClearSearch) = ""
          /\ search_query (step s ClearSearch) = ""
          /\ sort_key (step s ClearSearch) = sort_key s
          /\ sort_reverse (step s ClearSearch) = sort_reverse s)
    as (Hf2 & Hi2 & Hq2 & Hk2 & Hr2).
  { rewrite step_clear_search.
    destruct (String.eqb_spec (search_input s) "") as [E|E].
    - destruct Hvis as [Hq _]. by rewrite Hq1, Hq, E.
    - destruct (filter_plugins_frame "" (action_clear_search s))
        as (Hp & -> & -> & -> & ->).
      repeat split; try done.
      unfold filter_plugins. rewrite sort_plugins_filtered.
      cbn [sort_key sort_reverse filtered_plugins plugins
           set_filtered_plugins set_search_query].
      rewrite filtered_for_blank. by rewrite Hf1, Hk1, Hr1, Hp1. }
  assert (Permutation (filtered_plugins (step s ClearSearch)) (plugins s))
    as Hperm.
  { rewrite Hf2, Hf1, stable_sort_perm.
    destruct (sort_reverse s); [symmetry; apply Permutation_rev | done]. }
  pose proof (step_plugins s ClearSearch) as Hp2.
  assert (rendered (step s ClearSearch)) as Hrend.
  { apply (step_view s ClearSearch Hvis Hview).
    rewrite Hp2. destruct (plugins s) as [|p l]; [by right|]. left.
    intros E. rewrite E in Hperm. by apply Permutation_nil in Hperm. }
  assert (filtered_plugins (step s ClearSearch)
          = stable_sort (get_sort_value (sort_key s))
              (if sort_reverse s then rev (plugins s) else plugins s))
    as Hlist by (by rewrite Hf2, Hf1).
  split; [exact Hi1|]. split; [exact Hi2|]. split; [exact Hq2|].
  split; [by rewrite Hsort|]. split; [by rewrite Hf2|].
  split; [exact Hperm|]. split; [exact Hrend|].
  split; [exact Hk2|]. split; [exact Hr2|]. split; [exact Hp2|].
  split; [exact Hlist|].
  split; [rewrite Hlist, Hk2; apply stable_sort_ascending|].
  destruct Hrend as [Hrows Hstats].
  split; [by rewrite Hrows, Hlist|].
  by rewrite Hstats, (Permutation_length Hperm), Hp2.
Qed.

Lemma clear_search_effect_witness :
  reachable (step mounted (SearchTextChanged "y"))
  /\ filtered_plugins (step mounted (SearchTextChanged "y")) = [alpha]
  /\ search_query (step (step mounted (SearchTextChanged "y")) ClearSearch) = ""
  /\ filtered_plugins (step (step mounted (SearchTextChanged "y")) ClearSearch)
     = [alpha; beta]
  /\ rows (table (step (step mounted (SearchTextChanged "y")) ClearSearch))
     = [ [""; "alpha"; "Y"; ""; ""]; [""; "Beta"; "X"; ""; ""] ]
  /\ stats (step (step mounted (SearchTextChanged "y")) ClearSearch)
     = "Showing 2 of 2 plugins".
Proof.
  assert (reachable (step mounted (SearchTextChanged "y"))) as H.
  { apply reachable_step. apply reachable_mount. }
  split; [exact H|]. split; [vm_compute; reflexivity|].
  destruct (clear_search_effect _ H)
    as (_ & _ & Hq & _ & _ & _ & _ & _ & _ & _ & Hl & _ & Hr & Hs).
  split; [exact Hq|].
  split; [rewrite Hl; vm_compute; reflexivity|].
  split; [rewrite Hr; vm_compute; reflexivity|].
  rewrite Hs. vm_compute. reflexivity.
Defined.

(** C7.  Every event keeps the invariant that the visible list is a
    rearrangement of the records of the dataset that match the current
    query (the text of the search box, which the stored query equals),
    and no event changes the dataset. *)
Theorem visible_subset_invariant (s : App) (e : Event) :
  visible_invariant s ->
  visible_invariant (step s e) /\ plugins (step s e) = plugins s.
Proof.
  intros H. split; [by apply step_visible | apply step_plugins].
Qed.

Lemma visible_subset_invariant_witness :
  visible_invariant mounted
  /\ visible_invariant (step mounted (SearchTextChanged "y"))
  /\ plugins (step mounted (SearchTextChanged "y")) = plugins mounted.
Proof.
  assert (visible_invariant mounted) as H.
  { split; [reflexivity | vm_compute; reflexivity]. }
  split; [exact H|]. apply (visible_subset_invariant mounted _ H).
Defined.

Lemma run_reachable (events : list Event) (s : App) :
  reachable s -> reachable (fold_left step events s).
Proof.
  revert s. induction events as [|e events IH]; intros s H; simpl; [done|].
  by apply IH, reachable_step.
Qed.

Lemma run_plugins (events : list Event) (s : App) :
  plugins (fold_left step events s) = plugins s.
Proof.
  revert s. induction events as [|e events IH]; intros s; simpl; [done|].
  by rewrite IH, step_plugins.
Qed.

Lemma untyped_find_key (l : list (string * string)) (k v : string) :
  NoDup (l.*1) -> (k, v) ∈ l ->
  List.find (fun m => String.eqb (fst m) k) l = Some (k, v).
Proof.
  induction l as [|[k0 v0] l IH]; intros Hnd Hin.
  - by apply elem_of_nil in Hin.
  - rewrite fmap_cons in Hnd. apply NoDup_cons in Hnd as [Hk0 Hnd].
    simpl. destruct (String.eqb_spec k0 k) as [->|Hne].
    + apply elem_of_cons in Hin as [[= ->]|Hin]; [done|].
      exfalso. apply Hk0. apply list_elem_of_fmap. by exists (k, v).
    + apply elem_of_cons in Hin as [[= -> _]|Hin]; [done|]. by apply IH.
Qed.

Lemma untyped_find_map (l : list (string * string)) (k : string) :
  List.find (fun m => String.eqb (fst m) k)
    (map (fun m => (fst m, Untyped.JString (snd m))) l)
  = option_map (fun m => (fst m, Untyped.JString (snd m)))
      (List.find (fun m => String.eqb (fst m) k) l).
Proof.
  induction l as [|m l IH]; simpl; [done|].
  by destruct (String.eqb (fst m) k).
Qed.

Lemma untyped_get_of_plugin (plugin : Plugin) (k : string) :
  match Untyped.of_plugin plugin with
  | Untyped.JObject members =>
      Untyped.get members k (Untyped.JString "")
      = Untyped.JString (dict_get plugin k "")
  | _ => False
  end.
Proof.
  unfold Untyped.of_plugin, Untyped.get, dict_get.
  rewrite untyped_find_map.
  destruct (plugin !! k) as [v|] eqn:E; simpl.
  - rewrite (untyped_find_key _ k v); [done | |].
    + apply NoDup_fst_map_to_list.
    + by apply elem_of_map_to_list.
  - destruct (List.find _ (map_to_list plugin)) as [[k' v']|] eqn:F; [|done].
    apply find_some in F as [Hin Hk]. simpl in Hk.
    apply String.eqb_eq in Hk as ->.
    apply list_elem_of_In, elem_of_map_to_list in Hin. congruence.
Qed.

Lemma untyped_row_of_plugin (plugin : Plugin) :
  Untyped.row_of (Untyped.of_plugin plugin)
  = Some (map Untyped.JString (row_of plugin)).
Proof.
  pose proof (untyped_get_of_plugin plugin) as H.
  unfold Untyped.of_plugin in *. unfold Untyped.row_of, row_of.
  by rewrite !H.
Qed.

Lemma untyped_add_rows_plugins (data : list Plugin)
    (acc : list (list Untyped.Json)) :
  Untyped.add_rows (map Untyped.of_plugin data) acc
  = Some (acc ++ map (map Untyped.JString) (map row_of data))%list.
Proof.
  revert acc. induction data as [|p data IH]; intros acc;
    cbn [map Untyped.add_rows].
  - by rewrite app_nil_r.
  - rewrite untyped_row_of_plugin, IH. by rewrite <- app_assoc.
Qed.

(** On a file that holds a list of records of strings, [on_mount] on
    any content is [on_mount] of the application. *)
Lemma untyped_on_mount_records (data : list Plugin) :
  Untyped.on_mount (Untyped.Parses (Untyped.JArray (map Untyped.of_plugin data)))
  = Some (Untyped.view_of (on_mount (Loaded data) init)).
Proof.
  unfold Untyped.on_mount. cbn [Untyped.try_load Untyped.iterate].
  rewrite untyped_add_rows_plugins, length_map.
  unfold Untyped.view_of.
  destruct (populate_table_rendered (setup_table (load_data (Loaded data) init)))
    as [Hr Hs].
  change (populate_table (setup_table (load_data (Loaded data) init)))
    with (on_mount (Loaded data) init) in Hr, Hs.
  rewrite Hr, Hs. reflexivity.
Qed.

(** A file that holds a number, a string, a boolean or null is a failed
    load: [copy] raises inside the [try] block. *)
Lemma untyped_on_mount_scalar (v : Untyped.Json) :
  In (Untyped.type_name v) ["NoneType"; "bool"; "int"; "float"; "str"] ->
  Untyped.on_mount (Untyped.Parses v)
  = Some (Untyped.view_of
            (on_mount
               (Failed ("'" ++ Untyped.type_name v
                        ++ "' object has no attribute 'copy'"))
               init)).
Proof.
  destruct v; simpl; intros H; try reflexivity;
    exfalso; intuition discriminate.
Qed.

(** C8, as amended.  When the load raises inside [load_data], because
    the file is missing or unreadable or because its text is not JSON,
    [on_mount] still returns: the dataset and the visible list are
    empty, the title is the degraded one, one notification of severity
    "error" carries the failure, the status line reads "Showing 0 of 0
    plugins", and the application keeps running; whatever events follow,
    the lists stay empty and the status line keeps reading "Showing 0 of
    0 plugins". *)
Theorem load_failure_degrades (e : string) (events : list Event) :
  let s := on_mount (Failed e) init in
  plugins s = [] /\ filtered_plugins s = []
  /\ title s = "Plugin Viewer - Error loading data"
  /\ notifications s = [("Error loading plugins: " ++ e, "error")]
  /\ rows (table s) = []
  /\ stats s = "Showing 0 of 0 plugins"
  /\ running s = true
  /\ (let s' := fold_left step events s in
      plugins s' = [] /\ filtered_plugins s' = []
      /\ rows (table s') = [] /\ stats s' = "Showing 0 of 0 plugins")
  /\ Untyped.on_mount (Untyped.OpenFails e) = Some (Untyped.view_of s)
  /\ Untyped.on_mount (Untyped.DecodeFails e) = Some (Untyped.view_of s).
Proof.
  intros s. do 7 (split; [reflexivity|]).
  split; [|split; reflexivity]. intros s'.
  assert (plugins s' = []) as Hp by apply run_plugins.
  destruct (reachable_invariants s') as [Hvis Hview].
  { apply run_reachable, reachable_mount. }
  destruct (invariants_empty_view s' Hvis Hview Hp) as (Hf & Hr & Hs).
  done.
Qed.

(** C8 as stated fails on a malformed source that is still JSON: a file
    that holds the array [[1, 2]] passes the [try] block, which keeps
    the two numbers as the dataset, and [populate_table] raises on the
    first of them: no view is left, the exception leaves [on_mount]. *)
Lemma malformed_source_counterexample :
  let src := Untyped.Parses (Untyped.JArray [Untyped.JInt "1"; Untyped.JInt "2"]) in
  Untyped.try_load src
    = Untyped.Held (Untyped.JArray [Untyped.JInt "1"; Untyped.JInt "2"])
  /\ ~ (exists view, Untyped.on_mount src = Some view).
Proof.
  split; [reflexivity|]. intros [view H]. discriminate H.
Qed.

(** C9.  On a dataset whose records hold strings only, the filter
    returns a list and raises nothing; the sort and the rendering have no
    failing step and return one record, one row, per visible record.  A
    missing field is read as the empty string by all three: the
    searchable text and the row of a record without the field are those
    of the record with the field set to the empty string, and its sort
    key on that column is empty. *)
Theorem operations_total_on_well_formed
    (D : list (gmap string Raw.Value)) (query sort_key : string)
    (sort_reverse : bool) :
  Forall Raw.well_formed D ->
  (exists l, Raw.filtered_for D query = Some l)
  /\ Permutation (Raw.sorted_for sort_key sort_reverse D) D
  /\ length (Raw.rows_for D) = length D
  /\ (forall f p,
        Raw.searchable_text (delete (json_key f) p)
        = Raw.searchable_text (<[json_key f := Raw.VStr ""]> p))
  /\ (forall f p, Raw.get_sort_value (column_key f) (delete (json_key f) p) = "")
  /\ (forall f p,
        Raw.row_of (delete (json_key f) p)
        = Raw.row_of (<[json_key f := Raw.VStr ""]> p)).
Proof.
  intros H. split; [|split; [|split; [|split; [|split]]]].
  - unfold Raw.filtered_for. destruct (Str.is_empty (Str.strip query)).
    + eauto.
    + by apply RawFacts.filter_loop_well_formed.
  - apply RawFacts.sorted_for_perm.
  - apply length_map.
  - intros f p. unfold Raw.searchable_text.
    by rewrite (RawFacts.get_missing f Name), (RawFacts.get_missing f Manufacturer),
      (RawFacts.get_missing f Description), (RawFacts.get_missing f PluginType),
      (RawFacts.get_missing f Investigate).
  - intros f p. unfold Raw.get_sort_value, dict_get.
    by rewrite key_map_column, lookup_delete_eq.
  - intros f p. unfold Raw.row_of.
    by rewrite (RawFacts.get_missing f Name), (RawFacts.get_missing f Manufacturer),
      (RawFacts.get_missing f Description), (RawFacts.get_missing f PluginType),
      (RawFacts.get_missing f Investigate).
Qed.

Lemma operations_total_on_well_formed_witness :
  Forall Raw.well_formed [Raw.inject beta; Raw.inject alpha]
  /\ exists l, Raw.filtered_for [Raw.inject beta; Raw.inject alpha] "y" = Some l.
Proof.
  assert (Forall Raw.well_formed [Raw.inject beta; Raw.inject alpha]) as H.
  { repeat constructor; apply RawFacts.inject_well_formed. }
  split; [exact H|].
  apply (operations_total_on_well_formed _ "y" "name" false H).
Defined.

(** C10.  A sort key outside "type", "name", "manufacturer",
    "description", "investigate" is read as Name: [get_sort_value] gives
    the lowercased name and [sort_plugins] orders the visible list by
    it.  A column key outside that set selects the sort key "name", and
    the visible list comes out ordered by name. *)
Theorem unknown_key_falls_back_to_name (k : string) :
  ~ In k (map column_key fields) ->
  (forall p, get_sort_value k p = field_key Name p)
  /\ (forall s,
        let R := filtered_plugins (sort_plugins (set_sort_key k s)) in
        ascending (field_key Name) R /\ Permutation R (filtered_plugins s))
  /\ (forall s,
        let s' := on_data_table_column_selected k s in
        sort_key s' = "name"
        /\ ascending (field_key Name) (filtered_plugins s')
        /\ Permutation (filtered_plugins s') (filtered_plugins s)).
Proof.
  intros Hk. split; [|split].
  - intros p. by apply get_sort_value_other.
  - intros s R. subst R.
    split; [|exact (sort_plugins_perm (set_sort_key k s))].
    rewrite sort_plugins_filtered. cbn [sort_key set_sort_key].
    rewrite (stable_sort_ext _ (field_key Name))
      by (intros p; by apply get_sort_value_other).
    apply stable_sort_ascending.
  - intros s s'. subst s'.
    split; [|split; [|apply on_data_table_column_selected_perm]].
    + unfold on_data_table_column_selected, dict_get.
      rewrite sort_plugins_sort_key, (key_map_other k Hk).
      change (Str.remove_char " " (Str.lower (default "Name" None))) with "name".
      by destruct (String.eqb_spec (sort_key s) "name").
    + unfold on_data_table_column_selected, dict_get.
      rewrite (key_map_other k Hk).
      change (Str.remove_char " " (Str.lower (default "Name" None))) with "name".
      rewrite sort_plugins_filtered.
      assert (forall (b : bool) (l : list Plugin),
        ascending (field_key Name) (stable_sort (get_sort_value "name")
          (if b then rev l else l))) as Hasc.
      { intros b l.
        rewrite (stable_sort_ext _ (field_key Name))
          by apply (get_sort_value_column Name).
        apply stable_sort_ascending. }
      destruct (String.eqb_spec (sort_key s) "name") as [E|E];
        cbn [sort_key sort_reverse filtered_plugins set_sort_reverse set_sort_key].
      * rewrite E. apply Hasc.
      * apply (Hasc false).
Qed.

Lemma unknown_key_falls_back_to_name_witness :
  ~ In "plugintype" (map column_key fields)
  /\ forall p, get_sort_value "plugintype" p = field_key Name p.
Proof.
  assert (~ In "plugintype" (map column_key fields)) as H.
  { simpl. intuition discriminate. }
  split; [exact H|]. apply (unknown_key_falls_back_to_name "plugintype" H).
Defined.


(** * Further properties *)

Lemma ascending_keys {A : Type} (key : A -> string) (l : list A) :
  ascending key l -> StronglySorted Str.le (map key l).
Proof.
  unfold ascending. induction 1 as [|x l _ IH Hx]; simpl; constructor.
  - exact IH.
  - by apply Forall_map.
Qed.

Lemma sorted_strings_unique (l1 l2 : list string) :
  StronglySorted Str.le l1 -> StronglySorted Str.le l2 ->
  Permutation l1 l2 -> l1 = l2.
Proof.
  intros H1. revert l2. induction H1 as [|x l1 Hs1 IH Hx]; intros l2 H2 Hp.
  - by apply Permutation_nil in Hp.
  - destruct H2 as [|y l2 Hs2 Hy].
    + symmetry in Hp. by apply Permutation_nil in Hp.
    + assert (x = y) as ->.
      { apply String.leb_antisym.
        - assert (In y (x :: l1)) as [->|Hin].
          { apply (Permutation_in y (Permutation_sym Hp)). by left. }
          + apply StrFacts.leb_refl.
          + rewrite List.Forall_forall in Hx. by apply Hx.
        - assert (In x (y :: l2)) as [->|Hin].
          { apply (Permutation_in x Hp). by left. }
          + apply StrFacts.leb_refl.
          + rewrite List.Forall_forall in Hy. by apply Hy. }
      f_equal. apply IH; [exact Hs2|]. by apply Permutation_cons_inv in Hp.
Qed.

Lemma ascending_perm_keys {A : Type} (key : A -> string) (l1 l2 : list A) :
  ascending key l1 -> ascending key l2 -> Permutation l1 l2 ->
  map key l1 = map key l2.
Proof.
  intros H1 H2 Hp. apply sorted_strings_unique.
  - by apply ascending_keys.
  - by apply ascending_keys.
  - by apply Permutation_map.
Qed.

(** X1.  [sort_plugins] gives the same sequence of sort keys under
    either direction flag, an ascending one: under the descending flag
    the list is the stable ascending sort of the reversed input, so the
    flag only reverses the records of equal key among themselves. *)
Theorem sort_direction_same_keys (s : App) :
  let key := get_sort_value (sort_key s) in
  let up := filtered_plugins (sort_plugins (set_sort_reverse false s)) in
  let down := filtered_plugins (sort_plugins (set_sort_reverse true s)) in
  map key down = map key up
  /\ ascending key down
  /\ down = stable_sort key (rev (filtered_plugins s))
  /\ (forall k, with_key key k down = rev (with_key key k up)).
Proof.
  intros key up down. subst key up down. rewrite !sort_plugins_filtered.
  cbn [sort_key sort_reverse filtered_plugins set_sort_reverse].
  split; [|split; [|split]].
  - apply ascending_perm_keys; try apply stable_sort_ascending.
    rewrite !stable_sort_perm. symmetry. apply Permutation_rev.
  - apply stable_sort_ascending.
  - reflexivity.
  - intros k. by rewrite !stable_sort_with_key, with_key_rev.
Qed.

Lemma add_rows_clear (l : list Plugin) (t : DataTable) :
  clear (fold_left (fun t plugin => add_row (row_of plugin) t) l t) = clear t.
Proof.
  revert t. induction l as [|p l IH]; intros t; simpl; [done|]. by rewrite IH.
Qed.

Lemma populate_table_columns (s : App) :
  columns (table (populate_table s)) = columns (table s).
Proof.
  unfold populate_table. cbn [table set_stats set_table].
  change (columns (table s)) with (columns (clear (clear (table s)))).
  by rewrite <- (add_rows_clear (filtered_plugins s) (clear (table s))).
Qed.

(** X2.  After a successful load the dataset and the visible list are
    the records of the file, in the order of the file: [on_mount] does
    not sort them.  The table has the five columns and one row per
    record, the status line counts them all, the title carries their
    number, nothing is notified and the table has the focus. *)
Theorem mount_shows_file_order (data : list Plugin) :
  let s := on_mount (Loaded data) init in
  plugins s = data /\ filtered_plugins s = data
  /\ title s = "Plugin Viewer - " ++ Str.of_nat (length data) ++ " plugins"
  /\ notifications s = []
  /\ columns (table s) = table_columns
  /\ rows (table s) = map row_of data
  /\ stats s = stats_text (length data) (length data)
  /\ focused s = Some "plugins-table"
  /\ sort_key s = "name" /\ sort_reverse s = false.
Proof.
  intros s. subst s. do 4 (split; [reflexivity|]).
  split; [|split; [|repeat split]].
  - unfold on_mount. by rewrite populate_table_columns.
  - apply (populate_table_rendered (setup_table (load_data (Loaded data) init))).
Qed.

(** X3.  Filtering twice on the same query is filtering once: the
    submission of the search box after the live search on the same text
    changes nothing, in the lists, the table or the status line. *)
Theorem filter_plugins_idempotent (query : string) (s : App) :
  filter_plugins query (filter_plugins query s) = filter_plugins query s
  /\ step (step s (SearchTextChanged query)) SearchSubmitted
     = step s (SearchTextChanged query).
Proof.
  assert (forall s, filter_plugins query (filter_plugins query s)
                    = filter_plugins query s) as H.
  { clear s. intros s. unfold filter_plugins, sort_plugins.
    cbn [plugins filtered_plugins sort_key sort_reverse
         set_filtered_plugins set_search_query].
    destruct (filtered_for (plugins s) query) as [|p l] eqn:E;
      cbn [plugins filtered_plugins sort_key sort_reverse search_query title
           search_input stats table focused notifications running
           populate_table set_stats set_table set_filtered_plugins
           set_search_query];
      rewrite E;
      cbn [plugins filtered_plugins sort_key sort_reverse search_query title
           search_input stats table focused notifications running
           populate_table set_stats set_table set_filtered_plugins
           set_search_query];
      [reflexivity|].
    generalize (if sort_reverse s
                then rev (list_sort (get_sort_value (sort_key s))
                            (sort_reverse s) (p :: l))
                else list_sort (get_sort_value (sort_key s))
                       (sort_reverse s) (p :: l)).
    intros m. unfold populate_table.
    cbn [plugins filtered_plugins sort_key sort_reverse search_query title
         search_input stats table focused notifications running
         set_stats set_table set_filtered_plugins set_search_query].
    by rewrite add_rows_clear. }
  split; [apply H|].
  change (step s (SearchTextChanged query))
    with (filter_plugins query (set_search_input query s)).
  set (s1 := filter_plugins query (set_search_input query s)).
  change (step s1 SearchSubmitted) with (filter_plugins (search_input s1) s1).
  assert (search_input s1 = query) as ->.
  { subst s1.
    by destruct (filter_plugins_frame query (set_search_input query s))
      as (_ & _ & -> & _). }
  apply H.
Qed.

(** X4.  In every state of a session the visible records are records of
    the dataset that match the stored query, the shown count is at most
    the total, and the table and the status line show the visible list
    whenever that list is not empty. *)
Theorem session_view_consistent (s : App) :
  reachable s ->
  (forall p, In p (filtered_plugins s) ->
             In p (plugins s) /\ matches (search_query s) p = true)
  /\ length (filtered_plugins s) <= length (plugins s)
  /\ (filtered_plugins s <> [] -> rendered s).
Proof.
  intros H. destruct (reachable_invariants s H) as [[_ Hp] Hview].
  split; [|split].
  - intros p Hin. apply List.filter_In. by apply (Permutation_in p Hp).
  - rewrite (Permutation_length Hp). apply List.filter_length_le.
  - intros Hne. apply Hview. by left.
Qed.

Lemma session_view_consistent_witness :
  reachable (step mounted (SearchTextChanged "y"))
  /\ length (filtered_plugins (step mounted (SearchTextChanged "y")))
     <= length (plugins (step mounted (SearchTextChanged "y"))).
Proof.
  assert (reachable (step mounted (SearchTextChanged "y"))) as H.
  { apply reachable_step. apply reachable_mount. }
  split; [exact H|]. apply (session_view_consistent _ H).
Defined.

(** X5.  A search whose result is not empty refreshes the view: the
    table shows one row per matching record, in sorted order, and the
    status line reads the number of matches out of the size of the
    dataset. *)
Theorem search_refreshes_view (query : string) (s : App) :
  filtered_for (plugins s) query <> [] ->
  let s' := step s (SearchTextChanged query) in
  rows (table s') = map row_of (filtered_plugins s')
  /\ stats s'
     = stats_text (length (filtered_for (plugins s) query)) (length (plugins s))
  /\ Permutation (filtered_plugins s') (filtered_for (plugins s) query).
Proof.
  intros Hne s'. subst s'. simpl step. rewrite on_input_changed_search.
  cbn [search_input set_search_input]. unfold filter_plugins.
  set (s0 := set_filtered_plugins _ _).
  assert (filtered_plugins s0 <> []) as Hne0 by exact Hne.
  destruct (sort_plugins_rendered s0 Hne0) as [Hr Hs].
  pose proof (sort_plugins_perm s0) as Hp.
  split; [exact Hr|]. split; [|exact Hp].
  rewrite Hs, (Permutation_length Hp), sort_plugins_plugins. reflexivity.
Qed.

Lemma search_refreshes_view_witness :
  filtered_for (plugins mounted) "y" <> []
  /\ stats (step mounted (SearchTextChanged "y")) = "Showing 1 of 2 plugins".
Proof.
  assert (filtered_for (plugins mounted) "y" <> []) as H.
  { vm_compute. discriminate. }
  split; [exact H|].
  destruct (search_refreshes_view "y" mounted H) as (_ & Hs & _).
  rewrite Hs. vm_compute. reflexivity.
Defined.

(** ** Case and white space *)

Lemma lower_char_idempotent (c : ascii) :
  Str.lower_char (Str.lower_char c) = Str.lower_char c.
Proof. destruct c as [[] [] [] [] [] [] [] []]; reflexivity. Qed.

Lemma is_space_lower_char (c : ascii) :
  Str.is_space (Str.lower_char c) = Str.is_space c.
Proof. destruct c as [[] [] [] [] [] [] [] []]; reflexivity. Qed.

Lemma lower_idempotent (s : string) : Str.lower (Str.lower s) = Str.lower s.
Proof.
  induction s as [|c s IH]; simpl; [done|].
  by rewrite lower_char_idempotent, IH.
Qed.

Lemma all_space_lower (s : string) :
  Str.all_space (Str.lower s) = Str.all_space s.
Proof.
  induction s as [|c s IH]; simpl; [done|].
  by rewrite is_space_lower_char, IH.
Qed.

Lemma lower_app (a b : string) :
  Str.lower (a ++ b) = Str.lower a ++ Str.lower b.
Proof.
  induction a as [|c a IH]; [done|].
  rewrite StrFacts.append_cons. simpl Str.lower.
  by rewrite StrFacts.append_cons, IH.
Qed.

Lemma all_space_app (a b : string) :
  Str.all_space (a ++ b) = Str.all_space a && Str.all_space b.
Proof.
  induction a as [|c a IH]; [done|].
  rewrite StrFacts.append_cons. simpl Str.all_space.
  by rewrite IH, andb_assoc.
Qed.

Lemma string_app_assoc (a b c : string) : (a ++ b) ++ c = a ++ b ++ c.
Proof.
  induction a as [|x a IH]; [done|].
  by rewrite !StrFacts.append_cons, IH.
Qed.

Lemma filtered_for_all_space (D : list Plugin) (q : string) :
  filtered_for D q
  = if Str.all_space q then D
    else List.filter
           (fun p => Str.contains (Str.lower q) (searchable_text p)) D.
Proof.
  unfold filtered_for. rewrite StrFacts.strip_blank.
  destruct (Str.all_space q); [done|]. apply filter_loop_spec.
Qed.

(** X6.  The search ignores the case of the query: two queries with the
    same lowercased form select the same records, in the same order. *)
Theorem search_ignores_query_case (D : list Plugin) (q1 q2 : string) :
  Str.lower q1 = Str.lower q2 -> filtered_for D q1 = filtered_for D q2.
Proof.
  intros H. rewrite !filtered_for_all_space, H.
  by rewrite <- (all_space_lower q1), <- (all_space_lower q2), H.
Qed.

Lemma search_ignores_query_case_witness :
  Str.lower "Y" = Str.lower "y"
  /\ filtered_for sample "Y" = filtered_for sample "y".
Proof.
  assert (Str.lower "Y" = Str.lower "y") as H by reflexivity.
  split; [exact H|]. apply (search_ignores_query_case sample "Y" "y" H).
Defined.

Lemma filter_sublist {A : Type} (f g : A -> bool) (l : list A) :
  (forall x, f x = true -> g x = true) ->
  sublist (List.filter f l) (List.filter g l).
Proof.
  intros H. induction l as [|x l IH]; simpl; [constructor|].
  destruct (f x) eqn:Hf.
  - rewrite (H x Hf). by constructor.
  - destruct (g x); [by constructor | exact IH].
Qed.

Lemma contains_inner (a q b t : string) :
  Str.contains (a ++ q ++ b) t = true -> Str.contains q t = true.
Proof.
  rewrite !StrFacts.contains_spec. intros (u & v & ->).
  exists (u ++ a), (b ++ v). by rewrite !string_app_assoc.
Qed.

(** X7.  Extending a query in lower case narrows the result: the
    records found for a lowercased query with lowercased text added in
    front or behind are, in order, among the records found for the query
    itself. *)
Theorem longer_query_narrows (D : list Plugin) (a q b : string) :
  sublist (filtered_for D (Str.lower a ++ Str.lower q ++ Str.lower b))
    (filtered_for D q).
Proof.
  rewrite !filtered_for_matches. apply filter_sublist.
  intros p. unfold matches. rewrite !StrFacts.strip_blank, !orb_true_iff.
  destruct (Str.all_space q) eqn:Hq; [by left|].
  intros [Hs|Hc].
  - rewrite !all_space_app, !all_space_lower, Hq, andb_false_r in Hs. done.
  - right. rewrite !lower_app, !lower_idempotent in Hc.
    by apply contains_inner in Hc.
Qed.

(** ** Column selection *)

Lemma on_data_table_column_selected_unfold (c : string) (s : App) :
  on_data_table_column_selected c s
  = sort_plugins
      (if String.eqb (sort_key s) (stored_key c)
       then set_sort_reverse (negb (sort_reverse s)) s
       else set_sort_reverse false (set_sort_key (stored_key c) s)).
Proof. reflexivity. Qed.

Lemma on_data_table_column_selected_settings (c : string) (s : App) :
  sort_key (on_data_table_column_selected c s) = stored_key c
  /\ sort_reverse (on_data_table_column_selected c s)
     = (if String.eqb (sort_key s) (stored_key c)
        then negb (sort_reverse s) else false).
Proof.
  rewrite on_data_table_column_selected_unfold,
    sort_plugins_sort_key, sort_plugins_sort_reverse.
  by destruct (String.eqb_spec (sort_key s) (stored_key c)).
Qed.

Lemma on_data_table_column_selected_ascending (c : string) (s : App) :
  ascending (get_sort_value (stored_key c))
    (filtered_plugins (on_data_table_column_selected c s)).
Proof.
  rewrite on_data_table_column_selected_unfold.
  destruct (String.eqb_spec (sort_key s) (stored_key c)) as [E|E].
  - rewrite <- E.
    exact (sort_plugins_ascending (set_sort_reverse (negb (sort_reverse s)) s)).
  - exact (sort_plugins_ascending
             (set_sort_reverse false (set_sort_key (stored_key c) s))).
Qed.

(** X8.  A second click on the same column header keeps the sort key and
    flips the direction flag, and the displayed sequence of sort keys
    stays the same ascending one: the toggle never turns the order
    round. *)
Theorem column_selected_again (c : string) (s : App) :
  let s1 := on_data_table_column_selected c s in
  let s2 := on_data_table_column_selected c s1 in
  sort_key s1 = stored_key c /\ sort_key s2 = stored_key c
  /\ sort_reverse s2 = negb (sort_reverse s1)
  /\ map (get_sort_value (stored_key c)) (filtered_plugins s2)
     = map (get_sort_value (stored_key c)) (filtered_plugins s1)
  /\ ascending (get_sort_value (stored_key c)) (filtered_plugins s2).
Proof.
  intros s1 s2. subst s1 s2.
  destruct (on_data_table_column_selected_settings c s) as [Hk1 Hr1].
  destruct (on_data_table_column_selected_settings c
              (on_data_table_column_selected c s)) as [Hk2 Hr2].
  rewrite Hk1, String.eqb_refl in Hr2.
  split; [exact Hk1|]. split; [exact Hk2|]. split; [exact Hr2|].
  split; [|apply on_data_table_column_selected_ascending].
  apply ascending_perm_keys.
  - apply on_data_table_column_selected_ascending.
  - apply on_data_table_column_selected_ascending.
  - apply on_data_table_column_selected_perm.
Qed.

Lemma ascending_ext {A : Type} (key key' : A -> string) (l : list A) :
  (forall x, key x = key' x) -> ascending key l -> ascending key' l.
Proof.
  intros H. unfold ascending. induction 1 as [|x l _ IH Hx]; constructor.
  - exact IH.
  - eapply Forall_impl; [exact Hx|]. intros y. by rewrite !H.
Qed.

Lemma stored_key_text_column (f : Field) :
  In f [Name; Manufacturer; Description] -> stored_key (column_key f) = column_key f.
Proof.
  simpl. intros [<-|[<-|[<-|[]]]]; reflexivity.
Qed.

(** X9.  Selecting the Name, Manufacturer or Description column stores
    the key of that column and leaves the visible list a rearrangement
    of itself in ascending order of the lowercased value of that field;
    the direction flag is reset unless the column was the current one. *)
Theorem text_column_sorts_by_field (f : Field) (s : App) :
  In f [Name; Manufacturer; Description] ->
  let s' := on_data_table_column_selected (column_key f) s in
  sort_key s' = column_key f
  /\ sort_reverse s'
     = (if String.eqb (sort_key s) (column_key f)
        then negb (sort_reverse s) else false)
  /\ ascending (field_key f) (filtered_plugins s')
  /\ Permutation (filtered_plugins s') (filtered_plugins s)
  /\ plugins s' = plugins s.
Proof.
  intros Hf s'. subst s'.
  destruct (on_data_table_column_selected_settings (column_key f) s) as [Hk Hr].
  rewrite (stored_key_text_column f Hf) in Hk, Hr.
  split; [exact Hk|]. split; [exact Hr|].
  split; [|split; [apply on_data_table_column_selected_perm
                  |apply on_data_table_column_selected_frame]].
  pose proof (on_data_table_column_selected_ascending (column_key f) s) as Ha.
  rewrite (stored_key_text_column f Hf) in Ha.
  eapply ascending_ext; [|exact Ha].
  intros x. apply get_sort_value_column.
Qed.

Lemma text_column_sorts_by_field_witness :
  In Manufacturer [Name; Manufacturer; Description]
  /\ sort_key (on_data_table_column_selected (column_key Manufacturer) mounted)
     = column_key Manufacturer.
Proof.
  assert (In Manufacturer [Name; Manufacturer; Description]) as H.
  { simpl. tauto. }
  split; [exact H|]. apply (text_column_sorts_by_field Manufacturer mounted H).
Defined.

Lemma stored_key_session (c : string) : In (stored_key c) session_keys.
Proof.
  destruct (in_dec string_dec c (map column_key fields)) as [H|H].
  - simpl in H. destruct H as [<-|[<-|[<-|[<-|[<-|[]]]]]]; simpl; auto 10.
  - unfold stored_key, dict_get. rewrite (key_map_other c H). simpl. auto.
Qed.

Lemma step_sort_key (s : App) (e : Event) :
  sort_key (step s e) = sort_key s
  \/ exists c, e = ColumnSelected c /\ sort_key (step s e) = stored_key c.
Proof.
  destruct e as [text| |c| | |].
  - left. simpl step. rewrite on_input_changed_search.
    by destruct (filter_plugins_frame (search_input (set_search_input text s))
                   (set_search_input text s)) as (_ & _ & _ & -> & _).
  - left. simpl step. rewrite on_input_submitted_search.
    by destruct (filter_plugins_frame (search_input s) s) as (_ & _ & _ & -> & _).
  - right. exists c. split; [done|].
    apply on_data_table_column_selected_settings.
  - left. rewrite step_clear_search.
    destruct (action_clear_search_frame s) as (_ & Hk & _).
    destruct (String.eqb _ _); [exact Hk|].
    by destruct (filter_plugins_frame "" (action_clear_search s))
      as (_ & _ & _ & -> & _).
  - by left.
  - by left.
Qed.

(** X10.  In every state of a session the stored sort key is one of
    "name", "plugintype", "manufacturer", "description", "invsestigate",
    and the value [get_sort_value] sorts on is the lowercased Name,
    Manufacturer or Description: no session sorts on the type or on the
    investigate flag. *)
Theorem session_sorts_on_text_field (s : App) :
  reachable s ->
  In (sort_key s) session_keys
  /\ exists f, In f [Name; Manufacturer; Description]
       /\ forall p, get_sort_value (sort_key s) p = field_key f p.
Proof.
  intros H.
  assert (In (sort_key s) session_keys) as Hin.
  { induction H as [r|s e _ IH].
    - destruct r; simpl; auto.
    - destruct (step_sort_key s e) as [->|(c & _ & ->)]; [exact IH|].
      apply stored_key_session. }
  split; [exact Hin|].
  simpl in Hin. destruct Hin as [<-|[<-|[<-|[<-|[<-|[]]]]]].
  - exists Name. split; [simpl; auto|]. apply (get_sort_value_column Name).
  - exists Name. split; [simpl; auto|].
    intros p. apply get_sort_value_other. simpl. intuition discriminate.
  - exists Manufacturer. split; [simpl; auto|].
    apply (get_sort_value_column Manufacturer).
  - exists Description. split; [simpl; auto|].
    apply (get_sort_value_column Description).
  - exists Name. split; [simpl; auto|].
    intros p. apply get_sort_value_other. simpl. intuition discriminate.
Qed.

Lemma session_sorts_on_text_field_witness :
  reachable (step mounted (ColumnSelected "type"))
  /\ In (sort_key (step mounted (ColumnSelected "type"))) session_keys.
Proof.
  assert (reachable (step mounted (ColumnSelected "type"))) as H.
  { apply reachable_step. apply reachable_mount. }
  split; [exact H|]. apply (session_sorts_on_text_field _ H).
Defined.

(** ** Values that are not strings *)

Lemma raw_searchable_text_none (plugin : gmap string Raw.Value) :
  Raw.searchable_text plugin = None <-> Raw.searchable plugin = false.
Proof.
  unfold Raw.searchable_text, Raw.searchable, Raw.join.
  cbn [forallb Raw.join_items].
  destruct (dict_get plugin "Name" (Raw.VStr ""));
    destruct (dict_get plugin "Manufacturer" (Raw.VStr ""));
    destruct (dict_get plugin "Description" (Raw.VStr ""));
    destruct (dict_get plugin "Plugin Type" (Raw.VStr ""));
    destruct (dict_get plugin "Invsestigate" (Raw.VStr ""));
    cbn [Raw.is_string Raw.join_items andb]; split; done.
Qed.

Lemma raw_filter_loop_none (query_lower : string)
    (ps acc : list (gmap string Raw.Value)) :
  Raw.filter_loop query_lower ps acc = None
  <-> exists p, In p ps /\ Raw.searchable p = false.
Proof.
  revert acc. induction ps as [|p ps IH]; intros acc; simpl.
  - split; [done | by intros (p & [] & _)].
  - destruct (Raw.searchable_text p) as [t|] eqn:E.
    + assert (Raw.searchable p = true) as Hp.
      { destruct (Raw.searchable p) eqn:Hs; [done|].
        apply raw_searchable_text_none in Hs. congruence. }
      assert ((exists p0, (p = p0 \/ In p0 ps) /\ Raw.searchable p0 = false)
              <-> exists p0, In p0 ps /\ Raw.searchable p0 = false) as ->.
      { split; intros (p0 & H0 & H1); exists p0; [|by auto].
        destruct H0 as [<-|H0]; [congruence | done]. }
      destruct (Str.contains query_lower t); apply IH.
    + split; [|done]. intros _. exists p. split; [by left|].
      by apply raw_searchable_text_none.
Qed.

(** X11.  On records with arbitrary JSON values the filter raises
    exactly when the query is not blank and some record of the dataset
    holds a value that is not a string in one of the five fields; a
    blank query returns the dataset without reading any field. *)
Theorem raw_filter_raises_iff (D : list (gmap string Raw.Value)) (query : string) :
  (Raw.filtered_for D query = None
   <-> Str.all_space query = false
       /\ exists p, In p D /\ Raw.searchable p = false)
  /\ Raw.filtered_for D query
     = (if Str.all_space query then Some D
        else Raw.filter_loop (Str.lower query) D []).
Proof.
  unfold Raw.filtered_for. rewrite StrFacts.strip_blank.
  destruct (Str.all_space query); split; try reflexivity.
  - split; [done | by intros [? _]].
  - rewrite raw_filter_loop_none. split; [by split | by intros [_ ?]].
Qed.

(** ** Matches inside one field *)

Lemma string_app_empty_r (a : string) : a ++ "" = a.
Proof.
  induction a as [|c a IH]; [done|]. by rewrite StrFacts.append_cons, IH.
Qed.

Lemma searchable_text_field (f : Field) (plugin : Plugin) :
  exists a b,
    searchable_text plugin = a ++ Str.lower (field_value f plugin) ++ b.
Proof.
  unfold searchable_text, Str.join. cbn [String.concat].
  rewrite !lower_app.
  set (n := Str.lower (dict_get plugin "Name" "")).
  set (m := Str.lower (dict_get plugin "Manufacturer" "")).
  set (d := Str.lower (dict_get plugin "Description" "")).
  set (t := Str.lower (dict_get plugin "Plugin Type" "")).
  set (i := Str.lower (dict_get plugin "Invsestigate" "")).
  set (sp := Str.lower " ").
  destruct f; unfold field_value; cbn [json_key]; fold n m d t i.
  - exists (n ++ sp ++ m ++ sp ++ d ++ sp), (sp ++ i).
    by rewrite !string_app_assoc.
  - exists "", (sp ++ m ++ sp ++ d ++ sp ++ t ++ sp ++ i). done.
  - exists (n ++ sp), (sp ++ d ++ sp ++ t ++ sp ++ i).
    by rewrite !string_app_assoc.
  - exists (n ++ sp ++ m ++ sp), (sp ++ t ++ sp ++ i).
    by rewrite !string_app_assoc.
  - exists (n ++ sp ++ m ++ sp ++ d ++ sp ++ t ++ sp), "".
    by rewrite string_app_empty_r, !string_app_assoc.
Qed.

(** X12.  A record of the dataset is found by every query that occurs,
    case ignored, inside the value of one of its five fields. *)
Theorem match_in_field_is_found
    (D : list Plugin) (q : string) (f : Field) (p : Plugin) :
  In p D ->
  Str.contains (Str.lower q) (Str.lower (field_value f p)) = true ->
  In p (filtered_for D q).
Proof.
  intros Hin Hc. rewrite filtered_for_matches. apply List.filter_In.
  split; [exact Hin|]. unfold matches. apply orb_true_iff. right.
  destruct (searchable_text_field f p) as (a & b & ->).
  apply StrFacts.contains_spec in Hc as (u & v & ->).
  apply StrFacts.contains_spec. exists (a ++ u), (v ++ b).
  by rewrite !string_app_assoc.
Qed.

Lemma match_in_field_is_found_witness :
  In alpha sample
  /\ Str.contains (Str.lower "LPH") (Str.lower (field_value Name alpha)) = true
  /\ In alpha (filtered_for sample "LPH").
Proof.
  assert (In alpha sample) as H1 by (simpl; tauto).
  assert (Str.contains (Str.lower "LPH") (Str.lower (field_value Name alpha))
          = true) as H2 by (vm_compute; reflexivity).
  split; [exact H1|]. split; [exact H2|].
  apply (match_in_field_is_found sample "LPH" Name alpha H1 H2).
Defined.

(** ** Order after an event *)

Lemma filter_plugins_ascending (query : string) (s : App) :
  ascending (get_sort_value (sort_key (filter_plugins query s)))
    (filtered_plugins (filter_plugins query s)).
Proof.
  unfold filter_plugins. rewrite sort_plugins_sort_key.
  apply sort_plugins_ascending.
Qed.

(** X13.  Every search, submission, column selection and clearing leaves
    the visible list in ascending order of the value [get_sort_value]
    reads under the sort key then stored. *)
Theorem events_leave_list_sorted (s : App) :
  let sorted s' :=
    ascending (get_sort_value (sort_key s')) (filtered_plugins s') in
  (forall text, sorted (step s (SearchTextChanged text)))
  /\ sorted (step s SearchSubmitted)
  /\ (forall c, sorted (step s (ColumnSelected c)))
  /\ sorted (step s ClearSearch).
Proof.
  intros sorted. subst sorted. cbv beta.
  split; [|split; [|split]].
  - intros text. simpl step. rewrite on_input_changed_search.
    apply filter_plugins_ascending.
  - simpl step. rewrite on_input_submitted_search.
    apply filter_plugins_ascending.
  - intros c. simpl step.
    destruct (on_data_table_column_selected_settings c s) as [-> _].
    apply on_data_table_column_selected_ascending.
  - rewrite step_clear_search. destruct (String.eqb _ _).
    + unfold action_clear_search. rewrite sort_plugins_sort_key.
      apply sort_plugins_ascending.
    + apply filter_plugins_ascending.
Qed.

(** X14.  [populate_table] replaces the rows, whatever the table held:
    afterwards the table has one row of five cells per visible record,
    in the order of the visible list, under the columns it had, and the
    status line counts the visible list and the dataset; filling the
    table again changes nothing. *)
Theorem populate_table_replaces_rows (s : App) :
  let s' := populate_table s in
  rows (table s') = map row_of (filtered_plugins s)
  /\ Forall (fun r => length r = 5) (rows (table s'))
  /\ length (rows (table s')) = length (filtered_plugins s)
  /\ columns (table s') = columns (table s)
  /\ stats s' = stats_text (length (filtered_plugins s)) (length (plugins s))
  /\ populate_table s' = s'.
Proof.
  intros s'. subst s'.
  destruct (populate_table_rendered s) as [Hr Hs].
  change (filtered_plugins (populate_table s)) with (filtered_plugins s) in Hr.
  split; [exact Hr|]. rewrite Hr.
  split; [apply Forall_map, Forall_forall; done|].
  split; [apply length_map|].
  split; [apply populate_table_columns|].
  split; [exact Hs|].
  unfold populate_table.
  cbn [plugins filtered_plugins sort_key sort_reverse search_query title
       search_input stats table focused notifications running
       set_stats set_table].
  by rewrite add_rows_clear.
Qed.
